(** * VM profiler (src/lj_vmprofile.c): shallow embedding and properties

    The profiler is a SIGPROF handler that bumps counters in a shared
    [VMProfile] region, plus the timer/handler management and the Lua API
    that creates, selects and unmaps such regions.

    Conventions of the embedding:
    - C integers are [Z]; the 64-bit counters wrap ([incr64]), the pointer
      difference is reduced to the [ptrdiff_t] range ([ptrdiff]), [~x] is
      [Z.lnot].
    - A pointer is a [Z] address, [0] is [NULL]; the memory holding
      [VMProfile] objects is a finite map from addresses to their contents.
    - A C function that can dereference an invalid pointer or index outside
      an array returns [option]: [None] is undefined behaviour.
    - Memory is a collection of whole, independent [VMProfile] objects; a
      call that unmaps part of an object has an [outcome] outside it. *)

From Stdlib Require Import ZArith Lia List Bool.
From stdpp Require Import base option list gmap strings.

Local Open Scope Z_scope.

(** ** Error monad for partial C operations *)

Notation "'let?' x := e 'in' k" :=
  (match e with Some x => k | None => None end)
  (at level 10, x name, e at level 100, k at level 200, only parsing).

(** ** Constants declared in headers outside this file

    [lj_obj.h] declares the [LJ_VMST_*] enumeration and [lj_vmprofile.h]
    declares [LJ_VMPROFILE_TRACE_MAX]; neither header is part of the
    sources at hand, so the constants (and the size of the [VMProfile]
    structure) are kept abstract.  [enum_ok] states
    what the C declarations guarantee: the enumerators are pairwise
    distinct members of [0, LJ_VMST__MAX) and the trace table has at least
    one entry. *)

Class Headers := {
  LJ_VMST_INTERP : Z;
  LJ_VMST_GC : Z;
  LJ_VMST_HEAD : Z;
  LJ_VMST_LOOP : Z;
  LJ_VMST_JGC : Z;
  LJ_VMST_FFI : Z;
  LJ_VMST__MAX : Z;
  LJ_VMPROFILE_TRACE_MAX : Z;
  sizeof_VMProfile : Z
}.

Definition vmst_names `{Headers} : list Z :=
  [LJ_VMST_INTERP; LJ_VMST_GC; LJ_VMST_HEAD; LJ_VMST_LOOP; LJ_VMST_JGC;
   LJ_VMST_FFI].

Definition enum_ok `{Headers} : bool :=
  bool_decide (NoDup vmst_names)
  && forallb (fun s => (0 <=? s) && (s <? LJ_VMST__MAX)) vmst_names
  && (0 <=? LJ_VMPROFILE_TRACE_MAX).

(** ** Data model *)

(** Modelled from the spec: the counter type [VMProfileCount] is declared in
    [lj_vmprofile.h], which is not among the sources; the spec gives the
    counters as u64, so [x++] wraps at [2^64]. *)
Definition incr64 (x : Z) : Z := (x + 1) mod 2 ^ 64.

(** The value of an [intptr_t] difference, as a [ptrdiff_t]. *)
Definition ptrdiff (z : Z) : Z := (z + 2 ^ 63) mod 2 ^ 64 - 2 ^ 63.

(** [a[i]] for a C array held as a list: outside the array there is no
    element. *)
Definition index {A} (l : list A) (i : Z) : option A :=
  if i <? 0 then None else l !! Z.to_nat i.

(** Per-trace counters ([VMProfileTraceCount]); the fields are the ones the
    handler increments. *)
Record VMProfileTraceCount := {
  head : Z;
  loop : Z;
  ffi : Z;
  gc : Z;
  interp : Z
}.

Inductive subcounter := sub_head | sub_loop | sub_ffi | sub_gc | sub_interp.

#[global] Instance subcounter_eq_dec : EqDecision subcounter.
Proof. solve_decision. Defined.

Definition get_sub (f : subcounter) (c : VMProfileTraceCount) : Z :=
  match f with
  | sub_head => head c
  | sub_loop => loop c
  | sub_ffi => ffi c
  | sub_gc => gc c
  | sub_interp => interp c
  end.

(** [count->f++] *)
Definition incr_sub (f : subcounter) (c : VMProfileTraceCount)
  : VMProfileTraceCount :=
  match f with
  | sub_head =>
      {| head := incr64 (head c); loop := loop c; ffi := ffi c; gc := gc c;
         interp := interp c |}
  | sub_loop =>
      {| head := head c; loop := incr64 (loop c); ffi := ffi c; gc := gc c;
         interp := interp c |}
  | sub_ffi =>
      {| head := head c; loop := loop c; ffi := incr64 (ffi c); gc := gc c;
         interp := interp c |}
  | sub_gc =>
      {| head := head c; loop := loop c; ffi := ffi c; gc := incr64 (gc c);
         interp := interp c |}
  | sub_interp =>
      {| head := head c; loop := loop c; ffi := ffi c; gc := gc c;
         interp := incr64 (interp c) |}
  end.

(** The counter region. *)
Record VMProfile := {
  magic : Z;
  major : Z;
  minor : Z;
  vm : list Z;                        (* vm[LJ_VMST__MAX] *)
  trace : list VMProfileTraceCount    (* trace[LJ_VMPROFILE_TRACE_MAX+1] *)
}.

Definition with_vm (l : list Z) (P : VMProfile) : VMProfile :=
  {| magic := magic P; major := major P; minor := minor P; vm := l;
     trace := trace P |}.

Definition with_trace (l : list VMProfileTraceCount) (P : VMProfile)
  : VMProfile :=
  {| magic := magic P; major := major P; minor := minor P; vm := vm P;
     trace := l |}.

(** The array sizes given by the declaration of [VMProfile]. *)
Definition wf_profile `{Headers} (P : VMProfile) : Prop :=
  Z.of_nat (length (vm P)) = LJ_VMST__MAX /\
  Z.of_nat (length (trace P)) = LJ_VMPROFILE_TRACE_MAX + 1.

(** Compiled trace: the fields of [GCtrace] the handler reads. *)
Record GCtrace := {
  mcode : Z;       (* MCode *mcode: start of the machine code *)
  szmcode : Z;     (* MSize szmcode: its size *)
  mcloop : Z       (* MSize mcloop: offset of the loop start, 0 if none *)
}.

(** The fields of [global_State] the handler reads. *)
Record global_State := {
  vmstate : Z;
  gcvmstate : Z;
  lasttrace : Z
}.

(** What the handler reaches from [state.g]: the global state and, through
    [L2J], the trace table of the JIT state. *)
Record GG_State := {
  g : global_State;
  J : gmap Z GCtrace
}.

(** [traceref(J, n)]: a missing trace is a null [GCtrace *]. *)
Definition traceref (j : gmap Z GCtrace) (n : Z) : option GCtrace := j !! n.

(** Signal dispositions and timers, as the kernel keeps them. *)
Inductive sighandler :=
| SIG_DFL
| sa_function (addr : Z)
| sa_vmprofile_signal.

Record sigaction_t := {
  sa_sigaction : sighandler;
  sa_flags : Z;
  sa_mask : list Z
}.

Record timeval := { tv_sec : Z; tv_usec : Z }.
Record itimerval := { it_interval : timeval; it_value : timeval }.

(** [static struct { global_State *g; struct sigaction oldsa; } state] *)
Record state_t := {
  state_g : Z;
  oldsa : sigaction_t
}.

(** One call of [printf]. *)
Record printf_call := { fmt : string; args : list Z }.

(** The process: the file's two static variables and the parts of the
    operating-system state its functions act on. *)
Record Process := {
  profile : Z;                  (* static VMProfile *profile *)
  state : state_t;              (* static struct state *)
  mem : gmap Z VMProfile;       (* memory holding VMProfile objects *)
  mappings : gmap Z Z;          (* mmap table: address -> length *)
  fds : gset Z;                 (* open file descriptors *)
  stdout : list printf_call;    (* output written so far *)
  itimer_prof : itimerval;      (* ITIMER_PROF *)
  sigprof : sigaction_t         (* disposition of SIGPROF *)
}.

Definition with_profile (p : Z) (w : Process) : Process :=
  {| profile := p; state := state w; mem := mem w; mappings := mappings w;
     fds := fds w; stdout := stdout w; itimer_prof := itimer_prof w;
     sigprof := sigprof w |}.

Definition with_state (s : state_t) (w : Process) : Process :=
  {| profile := profile w; state := s; mem := mem w; mappings := mappings w;
     fds := fds w; stdout := stdout w; itimer_prof := itimer_prof w;
     sigprof := sigprof w |}.

Definition with_mem (m : gmap Z VMProfile) (w : Process) : Process :=
  {| profile := profile w; state := state w; mem := m; mappings := mappings w;
     fds := fds w; stdout := stdout w; itimer_prof := itimer_prof w;
     sigprof := sigprof w |}.

Definition with_mappings (m : gmap Z Z) (w : Process) : Process :=
  {| profile := profile w; state := state w; mem := mem w; mappings := m;
     fds := fds w; stdout := stdout w; itimer_prof := itimer_prof w;
     sigprof := sigprof w |}.

Definition with_fds (s : gset Z) (w : Process) : Process :=
  {| profile := profile w; state := state w; mem := mem w;
     mappings := mappings w; fds := s; stdout := stdout w;
     itimer_prof := itimer_prof w; sigprof := sigprof w |}.

Definition with_stdout (o : list printf_call) (w : Process) : Process :=
  {| profile := profile w; state := state w; mem := mem w;
     mappings := mappings w; fds := fds w; stdout := o;
     itimer_prof := itimer_prof w; sigprof := sigprof w |}.

Definition with_itimer_prof (t : itimerval) (w : Process) : Process :=
  {| profile := profile w; state := state w; mem := mem w;
     mappings := mappings w; fds := fds w; stdout := stdout w;
     itimer_prof := t; sigprof := sigprof w |}.

Definition with_sigprof (a : sigaction_t) (w : Process) : Process :=
  {| profile := profile w; state := state w; mem := mem w;
     mappings := mappings w; fds := fds w; stdout := stdout w;
     itimer_prof := itimer_prof w; sigprof := a |}.

(** ** State that the application can manage via FFI *)

(** [vmprofile_set_profile]: the stores go through [counters], which must
    point to a [VMProfile]. *)
Definition vmprofile_set_profile (counters : Z) (w : Process)
  : option Process :=
  let w := with_profile counters w in
  let? P := mem w !! profile w in
  let P := {| magic := 0x1d50f007; major := 3; minor := 0; vm := vm P;
              trace := trace P |} in
  Some (with_mem (<[profile w := P]> (mem w)) w).

(** ** Signal handler *)

Section Handler.
Context `{Headers}.

(** Lines 61-72: the relevant trace number. *)
Definition resolve_trace (gs : global_State) : Z :=
  if 0 <? vmstate gs then vmstate gs
  else if Z.lnot (vmstate gs) =? LJ_VMST_GC then gcvmstate gs
  else if (Z.lnot (vmstate gs) =? LJ_VMST_INTERP) && (0 <? lasttrace gs)
       then lasttrace gs
  else 0.

(** Line 75. *)
Definition trace_bucket (trace : Z) : Z :=
  if LJ_VMPROFILE_TRACE_MAX <? trace then 0 else trace.

(** [profile->vm[i]++] *)
Definition vm_incr (i : Z) (P : VMProfile) : option VMProfile :=
  let? x := index (vm P) i in
  Some (with_vm (<[Z.to_nat i := incr64 x]> (vm P)) P).

(** [count->f++] with [count = &profile->trace[bucket]] *)
Definition count_incr (bucket : Z) (f : subcounter) (P : VMProfile)
  : option VMProfile :=
  let? c := index (trace P) bucket in
  Some (with_trace (<[Z.to_nat bucket := incr_sub f c]> (trace P)) P).

(** [profile->vm[i]++; count->f++;] *)
Definition bump (i : Z) (bucket : Z) (f : subcounter) (P : VMProfile)
  : option VMProfile :=
  let? P := vm_incr i P in
  count_incr bucket f P.

(** The format string of line 80, ending in a newline. *)
Definition debug_format : string :=
  String.append "trace %d interp %d" (String (Ascii.ascii_of_nat 10) EmptyString).

Definition printf (format : string) (a : list Z) (w : Process) : Process :=
  with_stdout (stdout w ++ [{| fmt := format; args := a |}]) w.

(** The handler writes through [profile]. *)
Definition store (P : VMProfile) (w : Process) : Process :=
  with_mem (<[profile w := P]> (mem w)) w.

(** [vmprofile_signal], run on the host state [G] that [state.g] points to
    and the interrupted instruction pointer [ip] (register RIP of the
    signal context). *)
Definition vmprofile_signal (G : GG_State) (ip : Z) (w : Process)
  : option Process :=
  if profile w =? 0 then Some w
  else
    let? P := mem w !! profile w in
    let vmstate := vmstate (g G) in
    let trace := resolve_trace (g G) in
    if 0 <? trace then
      let bucket := trace_bucket trace in
      let? T := traceref (J G) trace in
      let mcposition := ptrdiff (ip - mcode T) in
      let w :=
        printf debug_format
          [trace; Z.b2z (Z.lnot vmstate =? LJ_VMST_INTERP)] w in
      if Z.lnot vmstate =? LJ_VMST_GC then
        let? P := bump LJ_VMST_JGC bucket sub_gc P in Some (store P w)
      else if Z.lnot vmstate =? LJ_VMST_INTERP then
        let? P := bump LJ_VMST_INTERP bucket sub_interp P in Some (store P w)
      else if (mcposition <? 0) || (szmcode T <=? mcposition) then
        let? P := bump LJ_VMST_FFI bucket sub_ffi P in Some (store P w)
      else if negb (mcloop T =? 0) && (mcloop T <=? mcposition) then
        let? P := bump LJ_VMST_LOOP bucket sub_loop P in Some (store P w)
      else
        let? P := bump LJ_VMST_HEAD bucket sub_head P in Some (store P w)
    else
      let? P := vm_incr (Z.lnot vmstate) P in Some (store P w).

End Handler.

(** ** Timer and handler management *)

Definition SA_SIGINFO : Z := 4.
Definition SA_RESTART : Z := 0x10000000.

Definition timeval_valid (tv : timeval) : bool :=
  (0 <=? tv_sec tv) && (0 <=? tv_usec tv) && (tv_usec tv <? 1000000).

(** [setitimer(ITIMER_PROF, &tm, NULL)]; the result is ignored by the
    callers, a rejected value leaves the timer as it was. *)
Definition setitimer_PROF (tm : itimerval) (w : Process) : Process :=
  if timeval_valid (it_value tm) && timeval_valid (it_interval tm)
  then with_itimer_prof tm w
  else w.

(** [sigaction(SIGPROF, act, oldact)] where [oldact] is [&state.oldsa] or
    [NULL]: the current disposition is stored through [oldact] when it is
    not null, and replaced by [*act] when [act] is not null. *)
Definition sigaction_SIGPROF (act : option sigaction_t)
    (oldact_state_oldsa : bool) (w : Process) : Process :=
  let current := sigprof w in
  let w :=
    if oldact_state_oldsa
    then with_state {| state_g := state_g (state w); oldsa := current |} w
    else w in
  match act with
  | Some a => with_sigprof a w
  | None => w
  end.

Definition start_timer (interval : Z) (w : Process) : Process :=
  let tv := {| tv_sec := Z.quot interval 1000;
               tv_usec := Z.rem interval 1000 * 1000 |} in
  let tm := {| it_interval := tv; it_value := tv |} in
  let w := setitimer_PROF tm w in
  let sa := {| sa_sigaction := sa_vmprofile_signal;
               sa_flags := Z.lor SA_SIGINFO SA_RESTART;
               sa_mask := [] |} in
  sigaction_SIGPROF (Some sa) true w.

Definition stop_timer (w : Process) : Process :=
  let tv := {| tv_sec := 0; tv_usec := 0 |} in
  let tm := {| it_interval := tv; it_value := tv |} in
  let w := setitimer_PROF tm w in
  sigaction_SIGPROF None true w.

(** ** Lua API *)

Inductive TValue := nilV | lightudV (p : Z).

(** The parts of [lua_State] the API uses: the slot [L->base] and [G(L)]. *)
Record lua_State := {
  base : TValue;
  glref : Z
}.

Definition setnilV (L : lua_State) : lua_State :=
  {| base := nilV; glref := glref L |}.

Definition setlightudV (p : Z) (L : lua_State) : lua_State :=
  {| base := lightudV p; glref := glref L |}.

(** What the operating system answers to the three calls of
    [luaJIT_vmprofile_open], and what it knows about the file: the mapping
    is [MAP_SHARED], so a store through it is a store to the file and is
    seen through every other shared mapping of the same file. *)
Record syscalls := {
  open_ret : Z;                        (* descriptor, or -1 *)
  ftruncate_ret : Z;                   (* 0, or -1 *)
  mmap_ret : option (Z * VMProfile);   (* None is MAP_FAILED; otherwise the
                                          address and the file contents
                                          seen through the mapping *)
  shared_with : gset Z                 (* the addresses at which the process
                                          already has this file mapped
                                          MAP_SHARED from offset 0 *)
}.

(** The outcome of a call on the memory of objects: either the call
    returns in the given state, or its effect is one this memory cannot
    express (it unmaps a part of an object and leaves the rest). *)
Inductive outcome (A : Type) :=
| Returns (a : A)
| Unmodelled.

Arguments Returns {A} a.
Arguments Unmodelled {A}.

(** Pages of x86-64 Linux (the handler reads [REG_RIP]). *)
Definition PAGE_SIZE : Z := 4096.

(** A length rounded up to whole pages. *)
Definition page_round (n : Z) : Z :=
  (n + PAGE_SIZE - 1) / PAGE_SIZE * PAGE_SIZE.

(** The byte ranges [a, a+la) and [b, b+lb). *)
Definition disjoint_range (a la b lb : Z) : bool :=
  (a + la <=? b) || (b + lb <=? a).

Definition inside_range (a la b lb : Z) : bool :=
  (b <=? a) && (a + la <=? b + lb).

(** [a, a+la) lies partly inside [b, b+lb) and partly outside. *)
Definition cut_range (a la b lb : Z) : bool :=
  negb (disjoint_range a la b lb) && negb (inside_range a la b lb).

Section LuaAPI.
Context `{Headers}.

Definition vmprofile_get_profile_size : Z := sizeof_VMProfile.

Definition zero_count : VMProfileTraceCount :=
  {| head := 0; loop := 0; ffi := 0; gc := 0; interp := 0 |}.

(** A [VMProfile] after [memset(ptr, 0, sizeof(VMProfile))]. *)
Definition zero_profile : VMProfile :=
  {| magic := 0; major := 0; minor := 0;
     vm := replicate (Z.to_nat LJ_VMST__MAX) 0;
     trace := replicate (Z.to_nat (LJ_VMPROFILE_TRACE_MAX + 1)) zero_count |}.

(** What [memset(ptr, 0, sizeof(VMProfile))] through a shared mapping does
    to the other mappings of the same file: the objects at the addresses
    [s] read zero as well. *)
Definition memset_shared (s : gset Z) (m : gmap Z VMProfile)
  : gmap Z VMProfile :=
  map_imap (fun a P => Some (if bool_decide (a ∈ s) then zero_profile else P))
    m.

(** [luaJIT_vmprofile_open].  The calls are chained by [&&], so a call is
    made only when the ones before it succeeded.  [checklightudptr] is the
    identity on the user-space addresses [mmap] returns.  The [memset]
    goes through the new mapping to the file, hence also to the objects
    that are shared mappings of it. *)
Definition luaJIT_vmprofile_open (L : lua_State) (str : string)
    (os : syscalls) (w : Process) : Z * lua_State * Process :=
  let fd := open_ret os in
  let w := if fd =? -1 then w else with_fds ({[fd]} ∪ fds w) w in
  let '(L, w) :=
    if negb (fd =? -1) && negb (ftruncate_ret os =? -1) then
      match mmap_ret os with
      | Some (ptr, contents) =>
          let w := with_mappings (<[ptr := sizeof_VMProfile]> (mappings w))
                     (with_mem (<[ptr := contents]> (mem w)) w) in
          let w := with_mem (<[ptr := zero_profile]>
                               (memset_shared (shared_with os) (mem w))) w in
          (setlightudV ptr L, w)
      | None => (setnilV L, w)
      end
    else (setnilV L, w) in
  let w := if negb (fd =? -1) then with_fds (fds w ∖ {[fd]}) w else w in
  (1, L, w).

(** [munmap(addr, len)].  The call fails with [EINVAL], unmapping
    nothing, when [addr] is not a multiple of the page size or [len] is
    not positive.  Otherwise it unmaps every page of
    [addr, addr + page_round len): the objects and the mappings that lie in
    these pages are gone, those outside stay; an object or mapping cut by
    the range is outside what this memory of whole objects expresses.
    Objects are [VMProfile]s, of [sizeof_VMProfile] bytes; a mapping of [l]
    bytes occupies [page_round l]. *)
Definition munmap (addr len : Z) (w : Process) : outcome Process :=
  if negb (addr mod PAGE_SIZE =? 0) || (len <=? 0) then Returns w
  else
    let n := page_round len in
    if bool_decide
         (map_Forall (fun a (_ : VMProfile) =>
                        cut_range a sizeof_VMProfile addr n = false) (mem w))
       && bool_decide
            (map_Forall (fun a l => cut_range a (page_round l) addr n = false)
               (mappings w))
    then
      Returns
        (with_mappings
           (filter (fun al : Z * Z =>
                      disjoint_range al.1 (page_round al.2) addr n = true)
              (mappings w))
           (with_mem
              (filter (fun aP : Z * VMProfile =>
                         disjoint_range aP.1 sizeof_VMProfile addr n = true)
                 (mem w))
              w))
    else Unmodelled.

(** [luaJIT_vmprofile_close]: [munmap(ud, sizeof(VMProfile))], whose result
    is ignored. *)
Definition luaJIT_vmprofile_close (L : lua_State) (ud : Z) (w : Process)
  : outcome (Z * lua_State * Process) :=
  match munmap ud sizeof_VMProfile w with
  | Returns w => Returns (0, L, w)
  | Unmodelled => Unmodelled
  end.

Definition luaJIT_vmprofile_select (L : lua_State) (ud : Z) (w : Process)
  : Z * lua_State * Process :=
  (1, setlightudV (profile w) L, with_profile ud w).

End LuaAPI.

Definition zero_sigaction : sigaction_t :=
  {| sa_sigaction := SIG_DFL; sa_flags := 0; sa_mask := [] |}.

Definition luaJIT_vmprofile_start (L : lua_State) (w : Process)
  : Z * lua_State * Process :=
  let w := with_state {| state_g := 0; oldsa := zero_sigaction |} w in
  let w := with_state {| state_g := glref L; oldsa := oldsa (state w) |} w in
  (0, L, start_timer 1 w).

Definition luaJIT_vmprofile_stop (L : lua_State) (w : Process)
  : Z * lua_State * Process :=
  (0, L, stop_timer w).

(** ** Counters of a store, addressed uniformly *)

Inductive counter :=
| vm_counter (i : Z)
| trace_counter (bucket : Z) (f : subcounter).

#[global] Instance counter_eq_dec : EqDecision counter.
Proof. solve_decision. Defined.

Definition read (P : VMProfile) (c : counter) : option Z :=
  match c with
  | vm_counter i => index (vm P) i
  | trace_counter b f => get_sub f <$> index (trace P) b
  end.

(** ** Concrete values used in the examples

    The enumerators are numbered in declaration order; the trace table is
    kept small. *)

Definition test_headers : Headers :=
  {| LJ_VMST_INTERP := 0; LJ_VMST_GC := 2; LJ_VMST_HEAD := 7;
     LJ_VMST_LOOP := 8; LJ_VMST_JGC := 9; LJ_VMST_FFI := 10;
     LJ_VMST__MAX := 11; LJ_VMPROFILE_TRACE_MAX := 4;
     sizeof_VMProfile := 8 + 8 * 11 + 40 * 5 |}.

(** ** Vocabulary of the properties *)

Section Vocabulary.
Context `{Headers}.

(** The sub-classification of lines 81-96 as a function of the host state,
    the attributed trace and the instruction pointer: the global bucket and
    the per-trace sub-counter.  [vmprofile_signal_attributed] below shows
    that the handler bumps exactly this pair. *)
Definition classify (gs : global_State) (T : GCtrace) (ip : Z)
  : Z * subcounter :=
  let mcposition := ptrdiff (ip - mcode T) in
  if Z.lnot (vmstate gs) =? LJ_VMST_GC then (LJ_VMST_JGC, sub_gc)
  else if Z.lnot (vmstate gs) =? LJ_VMST_INTERP
       then (LJ_VMST_INTERP, sub_interp)
  else if (mcposition <? 0) || (szmcode T <=? mcposition)
       then (LJ_VMST_FFI, sub_ffi)
  else if negb (mcloop T =? 0) && (mcloop T <=? mcposition)
       then (LJ_VMST_LOOP, sub_loop)
  else (LJ_VMST_HEAD, sub_head).

(** The fixed pairs of global bucket and per-trace sub-counter. *)
Definition matchings : list (Z * subcounter) :=
  [(LJ_VMST_JGC, sub_gc); (LJ_VMST_INTERP, sub_interp);
   (LJ_VMST_FFI, sub_ffi); (LJ_VMST_LOOP, sub_loop);
   (LJ_VMST_HEAD, sub_head)].

(** [P'] is [P] with exactly the counters of [cs] incremented (as C does,
    modulo [2^64]); the header, the array sizes and every other counter
    are those of [P]. *)
Definition incremented (cs : list counter) (P P' : VMProfile) : Prop :=
  magic P' = magic P /\ major P' = major P /\ minor P' = minor P /\
  length (vm P') = length (vm P) /\
  length (trace P') = length (trace P) /\
  (forall c, c ∈ cs -> is_Some (read P c)) /\
  (forall c, read P' c =
             if bool_decide (c ∈ cs) then incr64 <$> read P c
             else read P c).

(** The handler, run on [w] whose active store holds [P], returns and
    leaves the store as [P'] with exactly the counters [cs] incremented. *)
Definition counts (cs : list counter) (G : GG_State) (ip : Z) (w : Process)
  : Prop :=
  exists P P' w',
    mem w !! profile w = Some P /\
    vmprofile_signal G ip w = Some w' /\
    profile w' = profile w /\
    mem w' = <[profile w := P']> (mem w) /\
    incremented cs P P'.

(** A sample of trace [t] lands in global bucket [i] and in the sub-counter
    [f] of the trace's bucket. *)
Definition classified (i : Z) (f : subcounter) (t : Z) (G : GG_State)
    (ip : Z) (w : Process) : Prop :=
  counts [vm_counter i; trace_counter (trace_bucket t) f] G ip w.

(** The sample is attributed to trace [t]: the handler looks trace [t] up
    in the trace table (a missing trace is a null pointer it dereferences),
    counts the sample in one global counter and in one sub-counter of the
    bucket of [t], and names [t] in its output. *)
Definition attributed (t : Z) (G : GG_State) (ip : Z) (w : Process) : Prop :=
  match traceref (J G) t with
  | None => vmprofile_signal G ip w = None
  | Some _ =>
      exists i f w',
        vmprofile_signal G ip w = Some w' /\
        classified i f t G ip w /\
        stdout w' =
        stdout w ++
        [{| fmt := debug_format;
            args := [t; Z.b2z (Z.lnot (vmstate (g G)) =? LJ_VMST_INTERP)] |}]
  end.

(** The active store once the handler has run, and a counter of it. *)
Definition store_after (G : GG_State) (ip : Z) (w : Process)
  : option VMProfile :=
  let? w' := vmprofile_signal G ip w in
  mem w' !! profile w'.

Definition read_after (G : GG_State) (ip : Z) (w : Process) (c : counter)
  : option Z :=
  let? P := store_after G ip w in
  read P c.

(** The host state is one the handler can classify: the attributed trace,
    if there is one, exists in the trace table; otherwise the mode is one
    of the [LJ_VMST] states. *)
Definition valid_sample (G : GG_State) : Prop :=
  if 0 <? resolve_trace (g G)
  then is_Some (traceref (J G) (resolve_trace (g G)))
  else 0 <= Z.lnot (vmstate (g G)) < LJ_VMST__MAX.

End Vocabulary.

(** Example data: a store at address 4096 with all counters zero, and a
    trace 1 whose machine code occupies [0x10000, 0x10000 + 64). *)

Definition example_store : VMProfile := @zero_profile test_headers.

Definition example_process : Process :=
  {| profile := 4096;
     state := {| state_g := 0; oldsa := zero_sigaction |};
     mem := {[ 4096 := example_store ]};
     mappings := {[ 4096 := @sizeof_VMProfile test_headers ]};
     fds := ∅;
     stdout := [];
     itimer_prof := {| it_interval := {| tv_sec := 0; tv_usec := 0 |};
                       it_value := {| tv_sec := 0; tv_usec := 0 |} |};
     sigprof := zero_sigaction |}.

Definition example_trace (k : Z) : GCtrace :=
  {| mcode := 0x10000; szmcode := 64; mcloop := k |}.

(** The host while trace 1 runs, with its loop at offset [k]. *)
Definition example_host (k : Z) : GG_State :=
  {| g := {| vmstate := 1; gcvmstate := 0; lasttrace := 0 |};
     J := {[ 1 := example_trace k ]} |}.

(** The host while trace [t] runs. *)
Definition example_host_of (t : Z) : GG_State :=
  {| g := {| vmstate := t; gcvmstate := 0; lasttrace := 0 |};
     J := {[ t := example_trace 16 ]} |}.

(** The collector, running for trace 1; the interpreter, entered at the end
    of trace 1. *)
Definition example_gc : GG_State :=
  {| g := {| vmstate := Z.lnot (@LJ_VMST_GC test_headers); gcvmstate := 1;
             lasttrace := 0 |};
     J := {[ 1 := example_trace 16 ]} |}.

Definition example_post_trace : GG_State :=
  {| g := {| vmstate := Z.lnot (@LJ_VMST_INTERP test_headers);
             gcvmstate := 0; lasttrace := 1 |};
     J := {[ 1 := example_trace 16 ]} |}.

(** The host in the interpreter, no trace finished before. *)
Definition example_interp : GG_State :=
  {| g := {| vmstate := Z.lnot 0; gcvmstate := 0; lasttrace := 0 |};
     J := ∅ |}.

(** The same store with the interpreter counter at the largest value of
    its type. *)
Definition saturated_store : VMProfile :=
  with_vm (<[Z.to_nat (@LJ_VMST_INTERP test_headers) := 2 ^ 64 - 1]>
             (vm example_store)) example_store.

Definition saturated_process : Process :=
  with_mem {[ 4096 := saturated_store ]} example_process.

(** A process that has its own SIGPROF handler when profiling starts. *)
Definition own_handler : sigaction_t :=
  {| sa_sigaction := sa_function 0x401000; sa_flags := SA_RESTART;
     sa_mask := [] |}.

Definition hooked_process : Process := with_sigprof own_handler example_process.

Definition example_L : lua_State := {| base := nilV; glref := 0x40000 |}.

(** All three system calls of [luaJIT_vmprofile_open] succeed; the file
    already held a stamped store. *)
Definition syscalls_ok : syscalls :=
  {| open_ret := 3; ftruncate_ret := 0;
     mmap_ret :=
       Some (0x7f0000000000,
             {| magic := 0x1d50f007; major := 3; minor := 0;
                vm := vm saturated_store; trace := trace saturated_store |});
     shared_with := ∅
  |}.

(** ** Sessions and totals *)

(** The sum of an array of counters. *)
Definition total (l : list Z) : Z := foldr Z.add 0 l.

(** The sum over the trace table of one sub-counter. *)
Definition sub_total (f : subcounter) (P : VMProfile) : Z :=
  total (get_sub f <$> trace P).

(** No counter of the store is negative (they are unsigned). *)
Definition counters_nonneg (P : VMProfile) : Prop :=
  Forall (fun x => 0 <= x) (vm P) /\
  Forall (fun c => forall f, 0 <= get_sub f c) (trace P).

(** Successive deliveries of SIGPROF: each sample is the host state and the
    instruction pointer at the moment of the signal. *)
Fixpoint run_samples `{Headers} (ss : list (GG_State * Z)) (w : Process)
  : option Process :=
  match ss with
  | [] => Some w
  | (G, ip) :: ss =>
      let? w := vmprofile_signal G ip w in
      run_samples ss w
  end.

(** The disposition [start_timer] installs for SIGPROF. *)
Definition profiler_action : sigaction_t :=
  {| sa_sigaction := sa_vmprofile_signal;
     sa_flags := Z.lor SA_SIGINFO SA_RESTART;
     sa_mask := [] |}.

Definition disarmed : itimerval :=
  {| it_interval := {| tv_sec := 0; tv_usec := 0 |};
     it_value := {| tv_sec := 0; tv_usec := 0 |} |}.

(** A timer period in microseconds. *)
Definition usec (tv : timeval) : Z := tv_sec tv * 1000000 + tv_usec tv.

(** Three samples: trace 1 in its loop, the interpreter, trace 1 in a
    foreign call. *)
Definition example_samples : list (GG_State * Z) :=
  [(example_host 16, 0x10000 + 20); (example_interp, 0);
   (example_host 16, 0x20000)].

(** The example process after one sample of trace 1 in its loop, after
    the three example samples, and after installing its store with
    [vmprofile_set_profile]. *)
Definition example_after : Process :=
  default example_process
    (@vmprofile_signal test_headers (example_host 16) (0x10000 + 20)
       example_process).

Definition example_session_end : Process :=
  default example_process
    (@run_samples test_headers example_samples example_process).

Definition example_installed : Process :=
  default example_process (vmprofile_set_profile 4096 example_process).

(** The same successful calls on the file that the store at 4096 is a
    shared mapping of. *)
Definition syscalls_same_file : syscalls :=
  {| open_ret := 3; ftruncate_ret := 0;
     mmap_ret := Some (0x7f0000000000, saturated_store);
     shared_with := {[ 4096 ]} |}.




(** ** Arithmetic of the embedding *)

Lemma incr64_small (x : Z) : 0 <= x < 2 ^ 64 - 1 -> incr64 x = x + 1.
Proof. intros Hx. unfold incr64. apply Z.mod_small. lia. Qed.

Lemma incr64_max : incr64 (2 ^ 64 - 1) = 0.
Proof. reflexivity. Qed.

Lemma ptrdiff_small (z : Z) : - 2 ^ 63 <= z < 2 ^ 63 -> ptrdiff z = z.
Proof.
  intros Hz. unfold ptrdiff.
  rewrite Z.mod_small by lia. lia.
Qed.

Lemma lnot_neg (x : Z) : 0 < x -> Z.lnot x < 0.
Proof. unfold Z.lnot. lia. Qed.

(** ** Array indexing *)

Lemma index_Some_range {A} (l : list A) (i : Z) (x : A) :
  index l i = Some x -> 0 <= i < Z.of_nat (length l).
Proof.
  unfold index. destruct (Z.ltb_spec i 0); [discriminate|].
  intros Hl. apply lookup_lt_Some in Hl. lia.
Qed.

Lemma index_in_range {A} (l : list A) (i : Z) :
  0 <= i < Z.of_nat (length l) -> is_Some (index l i).
Proof.
  intros Hi. unfold index. destruct (Z.ltb_spec i 0); [lia|].
  apply lookup_lt_is_Some. lia.
Qed.

Lemma index_insert {A} (l : list A) (i j : Z) (v : A) :
  0 <= i ->
  index (<[Z.to_nat i := v]> l) j =
  if bool_decide (j = i) then (fun _ => v) <$> index l i else index l j.
Proof.
  intros Hi. unfold index. case_bool_decide as Hji.
  - subst j. destruct (Z.ltb_spec i 0); [lia|].
    destruct (l !! Z.to_nat i) eqn:Hl; simpl.
    + apply list_lookup_insert_eq. by apply lookup_lt_Some in Hl.
    + apply lookup_ge_None. rewrite length_insert. by apply lookup_ge_None.
  - destruct (Z.ltb_spec j 0); [done|].
    apply list_lookup_insert_ne. lia.
Qed.

(** ** What the declarations of the headers give *)

Section Facts.
Context `{Headers}.

Lemma enum_ok_range :
  enum_ok = true ->
  Forall (fun s => 0 <= s < LJ_VMST__MAX) vmst_names /\
  0 <= LJ_VMPROFILE_TRACE_MAX.
Proof.
  unfold enum_ok. rewrite !andb_true_iff, forallb_forall.
  intros [[_ Hall] Hmax]. split; [|lia].
  apply List.Forall_forall. intros s Hs. specialize (Hall s Hs).
  apply andb_true_iff in Hall. lia.
Qed.

Lemma enum_ok_distinct : enum_ok = true -> NoDup vmst_names.
Proof.
  unfold enum_ok. rewrite !andb_true_iff.
  intros [[Hnd _] _]. by apply bool_decide_eq_true in Hnd.
Qed.

(** The enumerators the handler uses as array indices are inside [vm]. *)
Lemma enum_ok_bounds :
  enum_ok = true ->
  (0 <= LJ_VMST_INTERP < LJ_VMST__MAX) /\ (0 <= LJ_VMST_GC < LJ_VMST__MAX) /\
  (0 <= LJ_VMST_HEAD < LJ_VMST__MAX) /\ (0 <= LJ_VMST_LOOP < LJ_VMST__MAX) /\
  (0 <= LJ_VMST_JGC < LJ_VMST__MAX) /\ (0 <= LJ_VMST_FFI < LJ_VMST__MAX).
Proof.
  intros Hok. destruct (enum_ok_range Hok) as [Hall _].
  unfold vmst_names in Hall.
  repeat (apply Forall_cons in Hall; destruct Hall as [? Hall]).
  auto 10.
Qed.

(** [LJ_VMST_INTERP] is none of the JIT buckets. *)
Lemma interp_not_jit :
  enum_ok = true ->
  LJ_VMST_INTERP <> LJ_VMST_JGC /\ LJ_VMST_INTERP <> LJ_VMST_FFI /\
  LJ_VMST_INTERP <> LJ_VMST_LOOP /\ LJ_VMST_INTERP <> LJ_VMST_HEAD.
Proof.
  intros Hok. pose proof (enum_ok_distinct Hok) as Hnd.
  unfold vmst_names in Hnd. apply NoDup_cons in Hnd as [Hnotin _].
  rewrite !not_elem_of_cons in Hnotin. tauto.
Qed.

Lemma trace_bucket_range (t : Z) :
  0 <= LJ_VMPROFILE_TRACE_MAX -> 0 < t ->
  0 <= trace_bucket t <= LJ_VMPROFILE_TRACE_MAX.
Proof.
  intros Hmax Ht. unfold trace_bucket.
  destruct (Z.ltb_spec LJ_VMPROFILE_TRACE_MAX t); lia.
Qed.

(** ** Incrementing counters of a store *)

Lemma incremented_length (cs : list counter) (P P' : VMProfile) :
  incremented cs P P' -> wf_profile P -> wf_profile P'.
Proof.
  intros (_ & _ & _ & Hvm & Htr & _) [Hl1 Hl2].
  split; congruence.
Qed.

Lemma get_incr_sub (f f' : subcounter) (c : VMProfileTraceCount) :
  get_sub f' (incr_sub f c) =
  if bool_decide (f' = f) then incr64 (get_sub f c) else get_sub f' c.
Proof. by destruct f, f'. Qed.

Lemma vm_incr_incremented (i : Z) (P P' : VMProfile) :
  vm_incr i P = Some P' -> incremented [vm_counter i] P P'.
Proof.
  unfold vm_incr. destruct (index (vm P) i) as [x|] eqn:Hx; [|done].
  intros [= <-]. pose proof (index_Some_range _ _ _ Hx) as Hi.
  repeat split; simpl; try done.
  - by rewrite length_insert.
  - intros c ->%list_elem_of_singleton. simpl. by rewrite Hx.
  - intros [j|b f]; simpl.
    + rewrite index_insert by lia.
      rewrite (bool_decide_ext (vm_counter j ∈ [vm_counter i]) (j = i)).
      * case_bool_decide; [subst; by rewrite Hx|done].
      * rewrite list_elem_of_singleton. split; [by intros [= ->]|by intros ->].
    + done.
Qed.

Lemma count_incr_incremented (b : Z) (f : subcounter) (P P' : VMProfile) :
  count_incr b f P = Some P' -> incremented [trace_counter b f] P P'.
Proof.
  unfold count_incr. destruct (index (trace P) b) as [c0|] eqn:Hc; [|done].
  intros [= <-]. pose proof (index_Some_range _ _ _ Hc) as Hb.
  repeat split; simpl; try done.
  - by rewrite length_insert.
  - intros c ->%list_elem_of_singleton. simpl. by rewrite Hc.
  - intros [j|b' f']; [done|].
    cbn [read trace with_trace].
    rewrite index_insert by lia.
    destruct (decide (b' = b)) as [->|Hne].
    + rewrite bool_decide_eq_true_2 by done. rewrite Hc. simpl.
      rewrite get_incr_sub.
      destruct (decide (f' = f)) as [->|Hnf].
      * rewrite !bool_decide_eq_true_2;
          [done | apply list_elem_of_singleton; done | done].
      * rewrite !bool_decide_eq_false_2; [done | | done].
        intros [=]%list_elem_of_singleton. done.
    + rewrite bool_decide_eq_false_2 by done.
      rewrite bool_decide_eq_false_2; [done|].
      intros [=]%list_elem_of_singleton. done.
Qed.

(** Two successive groups of increments on different counters. *)
Lemma incremented_app (cs1 cs2 : list counter) (P P1 P2 : VMProfile) :
  (forall c, c ∈ cs1 -> c ∉ cs2) ->
  incremented cs1 P P1 -> incremented cs2 P1 P2 ->
  incremented (cs1 ++ cs2) P P2.
Proof.
  intros Hdisj (Hm1 & Hj1 & Hn1 & Hv1 & Ht1 & Hs1 & Hr1)
               (Hm2 & Hj2 & Hn2 & Hv2 & Ht2 & Hs2 & Hr2).
  repeat split; try congruence.
  - intros c [Hc|Hc]%elem_of_app; [by apply Hs1|].
    specialize (Hs2 c Hc). rewrite Hr1 in Hs2.
    case_bool_decide; [|done].
    destruct (read P c); [done|]. by destruct Hs2.
  - intros c. rewrite Hr2, Hr1.
    destruct (decide (c ∈ cs1)) as [Hc1|Hc1].
    + pose proof (Hdisj c Hc1) as Hc2.
      rewrite (bool_decide_eq_false_2 (c ∈ cs2)) by done.
      rewrite (bool_decide_eq_true_2 (c ∈ cs1)) by done.
      rewrite bool_decide_eq_true_2; [done|]. apply elem_of_app. by left.
    + rewrite (bool_decide_eq_false_2 (c ∈ cs1)) by done.
      destruct (decide (c ∈ cs2)) as [Hc2|Hc2].
      * rewrite (bool_decide_eq_true_2 (c ∈ cs2)) by done.
        rewrite bool_decide_eq_true_2; [done|]. apply elem_of_app. by right.
      * rewrite (bool_decide_eq_false_2 (c ∈ cs2)) by done.
        rewrite bool_decide_eq_false_2; [done|].
        rewrite elem_of_app. tauto.
Qed.

Lemma bump_incremented (i b : Z) (f : subcounter) (P P' : VMProfile) :
  bump i b f P = Some P' ->
  incremented [vm_counter i; trace_counter b f] P P'.
Proof.
  unfold bump. destruct (vm_incr i P) as [P1|] eqn:H1; [|done].
  intros H2.
  apply (incremented_app [vm_counter i] [trace_counter b f] P P1 P').
  - intros c ->%list_elem_of_singleton [=]%list_elem_of_singleton.
  - by apply vm_incr_incremented.
  - by apply count_incr_incremented.
Qed.

Lemma vm_incr_defined (i : Z) (P : VMProfile) :
  wf_profile P -> 0 <= i < LJ_VMST__MAX -> is_Some (vm_incr i P).
Proof.
  intros [Hvm _] Hi. unfold vm_incr.
  destruct (index_in_range (vm P) i) as [x ->]; [lia|]. eauto.
Qed.

Lemma count_incr_defined (b : Z) (f : subcounter) (P : VMProfile) :
  wf_profile P -> 0 <= b <= LJ_VMPROFILE_TRACE_MAX ->
  is_Some (count_incr b f P).
Proof.
  intros [_ Htr] Hb. unfold count_incr.
  destruct (index_in_range (trace P) b) as [x ->]; [lia|]. eauto.
Qed.

Lemma bump_defined (i b : Z) (f : subcounter) (P : VMProfile) :
  wf_profile P -> 0 <= i < LJ_VMST__MAX ->
  0 <= b <= LJ_VMPROFILE_TRACE_MAX ->
  is_Some (bump i b f P).
Proof.
  intros Hwf Hi Hb. unfold bump.
  destruct (vm_incr_defined i P Hwf Hi) as [P1 H1]. rewrite H1.
  apply count_incr_defined; [|done].
  eapply incremented_length; [|done]. by apply vm_incr_incremented.
Qed.

End Facts.

(** ** The handler on an active store *)

Section HandlerFacts.
Context `{Headers}.

Lemma classify_matchings (gs : global_State) (T : GCtrace) (ip : Z) :
  classify gs T ip ∈ matchings.
Proof.
  unfold classify, matchings.
  repeat match goal with |- context [if ?b then _ else _] => destruct b end;
    set_solver.
Qed.

Lemma matchings_range (i : Z) (f : subcounter) :
  enum_ok = true -> (i, f) ∈ matchings -> 0 <= i < LJ_VMST__MAX.
Proof.
  intros Hok Hin. pose proof (enum_ok_bounds Hok) as Hb.
  unfold matchings in Hin. rewrite !elem_of_cons, elem_of_nil in Hin.
  destruct Hin as [[= -> _]|[[= -> _]|[[= -> _]|[[= -> _]|[[= -> _]|[]]]]]];
    tauto.
Qed.

(** While a trace runs, the mode is neither the collector nor the
    interpreter, and the instruction pointer decides. *)
Lemma classify_mcode (gs : global_State) (T : GCtrace) (ip : Z) :
  enum_ok = true -> 0 < vmstate gs ->
  classify gs T ip =
  if (ptrdiff (ip - mcode T) <? 0) || (szmcode T <=? ptrdiff (ip - mcode T))
  then (LJ_VMST_FFI, sub_ffi)
  else if negb (mcloop T =? 0) && (mcloop T <=? ptrdiff (ip - mcode T))
       then (LJ_VMST_LOOP, sub_loop)
       else (LJ_VMST_HEAD, sub_head).
Proof.
  intros Hok Hvm. pose proof (enum_ok_bounds Hok) as Hb.
  pose proof (lnot_neg _ Hvm) as Hneg. unfold classify.
  destruct (Z.eqb_spec (Z.lnot (vmstate gs)) LJ_VMST_GC); [lia|].
  destruct (Z.eqb_spec (Z.lnot (vmstate gs)) LJ_VMST_INTERP); [lia|].
  done.
Qed.

Lemma resolve_trace_mcode (gs : global_State) :
  0 < vmstate gs -> resolve_trace gs = vmstate gs.
Proof.
  intros Hvm. unfold resolve_trace.
  destruct (Z.ltb_spec 0 (vmstate gs)); [done|lia].
Qed.

(** With an attributed trace the handler prints and bumps the pair given
    by [classify], in the bucket of the trace. *)
Lemma vmprofile_signal_attributed (G : GG_State) (ip : Z) (w : Process)
    (P : VMProfile) (T : GCtrace) :
  profile w <> 0 -> mem w !! profile w = Some P ->
  0 < resolve_trace (g G) ->
  traceref (J G) (resolve_trace (g G)) = Some T ->
  vmprofile_signal G ip w =
  let? P' := bump (classify (g G) T ip).1
               (trace_bucket (resolve_trace (g G)))
               (classify (g G) T ip).2 P in
  Some (store P'
          (printf debug_format
             [resolve_trace (g G);
              Z.b2z (Z.lnot (vmstate (g G)) =? LJ_VMST_INTERP)] w)).
Proof.
  intros Hp HP Ht HT. unfold vmprofile_signal, classify.
  destruct (Z.eqb_spec (profile w) 0); [done|].
  rewrite HP. destruct (Z.ltb_spec 0 (resolve_trace (g G))); [|lia].
  rewrite HT.
  repeat match goal with |- context [if ?b then _ else _] => destruct b end;
    done.
Qed.

(** Without one it bumps the global counter of the mode, nothing else. *)
Lemma vmprofile_signal_global (G : GG_State) (ip : Z) (w : Process)
    (P : VMProfile) :
  profile w <> 0 -> mem w !! profile w = Some P ->
  resolve_trace (g G) <= 0 ->
  vmprofile_signal G ip w =
  let? P' := vm_incr (Z.lnot (vmstate (g G))) P in Some (store P' w).
Proof.
  intros Hp HP Ht. unfold vmprofile_signal.
  destruct (Z.eqb_spec (profile w) 0); [done|].
  rewrite HP. destruct (Z.ltb_spec 0 (resolve_trace (g G))); [lia|done].
Qed.

Lemma classified_intro (G : GG_State) (ip : Z) (w : Process)
    (P : VMProfile) (T : GCtrace) (i : Z) (f : subcounter) :
  enum_ok = true ->
  profile w <> 0 -> mem w !! profile w = Some P -> wf_profile P ->
  0 < resolve_trace (g G) ->
  traceref (J G) (resolve_trace (g G)) = Some T ->
  classify (g G) T ip = (i, f) ->
  classified i f (resolve_trace (g G)) G ip w.
Proof.
  intros Hok Hp HP Hwf Ht HT Hcl.
  pose proof (classify_matchings (g G) T ip) as Hin. rewrite Hcl in Hin.
  pose proof (matchings_range i f Hok Hin) as Hi.
  destruct (enum_ok_range Hok) as [_ Hmax].
  pose proof (trace_bucket_range _ Hmax Ht) as Hb.
  destruct (bump_defined i _ f P Hwf Hi Hb) as [P' HP'].
  exists P, P'; eexists. split; [done|]. split.
  - rewrite (vmprofile_signal_attributed G ip w P T) by done.
    rewrite Hcl. simpl. rewrite HP'. done.
  - split; [done|]. split; [done|]. by apply bump_incremented.
Qed.

Lemma global_counted (G : GG_State) (ip : Z) (w : Process) (P : VMProfile) :
  profile w <> 0 -> mem w !! profile w = Some P -> wf_profile P ->
  resolve_trace (g G) <= 0 ->
  0 <= Z.lnot (vmstate (g G)) < LJ_VMST__MAX ->
  exists P', vmprofile_signal G ip w = Some (store P' w) /\
             incremented [vm_counter (Z.lnot (vmstate (g G)))] P P'.
Proof.
  intros Hp HP Hwf Ht Hm.
  destruct (vm_incr_defined _ P Hwf Hm) as [P' HP'].
  exists P'. split.
  - rewrite (vmprofile_signal_global G ip w P) by done. by rewrite HP'.
  - by apply vm_incr_incremented.
Qed.

(** What an increment does to the value of a counter. *)
Lemma incremented_values (cs : list counter) (P P' : VMProfile)
    (c : counter) (x : Z) :
  incremented cs P P' -> read P c = Some x -> 0 <= x ->
  (c ∈ cs -> x < 2 ^ 64 - 1) ->
  exists x', read P' c = Some x' /\ x <= x' /\
             (c ∈ cs -> x' = x + 1) /\ (c ∉ cs -> x' = x).
Proof.
  intros (_ & _ & _ & _ & _ & _ & Hr) Hx H0 Hlt.
  rewrite Hr, Hx. case_bool_decide as Hc.
  - exists (x + 1). simpl. rewrite incr64_small by (specialize (Hlt Hc); lia).
    repeat split; [lia|done..].
  - exists x. repeat split; [lia|done..].
Qed.

End HandlerFacts.

(** ** Classification of samples *)

Section Classification.
Context `{Headers}.

(** C1 (as amended): for a sample taken while the machine code of a trace
    runs, with the code at [base, base+len) and loop offset [k],
    [0 <= k < len]: an instruction pointer [base-1] or [base+len] counts as
    ffi; when [0 < k], [base+k-1] counts as head and [base+k] as loop; when
    [k = 0] the trace has no loop entry and [base] counts as head. *)
Theorem offset_boundary_law (G : GG_State) (w : Process) (P : VMProfile)
    (base len k : Z) :
  enum_ok = true ->
  profile w <> 0 -> mem w !! profile w = Some P -> wf_profile P ->
  0 < vmstate (g G) ->
  traceref (J G) (vmstate (g G)) =
    Some {| mcode := base; szmcode := len; mcloop := k |} ->
  0 <= k < len -> len < 2 ^ 32 ->
  classified LJ_VMST_FFI sub_ffi (vmstate (g G)) G (base - 1) w /\
  classified LJ_VMST_FFI sub_ffi (vmstate (g G)) G (base + len) w /\
  (0 < k ->
   classified LJ_VMST_HEAD sub_head (vmstate (g G)) G (base + k - 1) w /\
   classified LJ_VMST_LOOP sub_loop (vmstate (g G)) G (base + k) w) /\
  (k = 0 -> classified LJ_VMST_HEAD sub_head (vmstate (g G)) G base w).
Proof.
  intros Hok Hp HP Hwf Hvm HT Hk Hlen.
  pose proof (resolve_trace_mcode (g G) Hvm) as Hres.
  assert (Hat : forall ip i f,
             (if (ptrdiff (ip - base) <? 0) || (len <=? ptrdiff (ip - base))
              then (LJ_VMST_FFI, sub_ffi)
              else if negb (k =? 0) && (k <=? ptrdiff (ip - base))
                   then (LJ_VMST_LOOP, sub_loop)
                   else (LJ_VMST_HEAD, sub_head)) = (i, f) ->
             classified i f (vmstate (g G)) G ip w).
  { intros ip i f Hcl. rewrite <- Hres.
    apply (classified_intro G ip w P
             {| mcode := base; szmcode := len; mcloop := k |} i f
             Hok Hp HP Hwf).
    - lia.
    - by rewrite Hres.
    - by rewrite classify_mcode. }
  assert (H2 : (2 ^ 32 < 2 ^ 63)) by lia.
  split; [|split; [|split]].
  - apply Hat. replace (base - 1 - base) with (-1) by lia.
    by rewrite ptrdiff_small by lia.
  - apply Hat. replace (base + len - base) with len by lia.
    rewrite ptrdiff_small by lia.
    destruct (Z.ltb_spec len 0); [lia|].
    destruct (Z.leb_spec len len); [done|lia].
  - intros Hk0. split; apply Hat.
    + replace (base + k - 1 - base) with (k - 1) by lia.
      rewrite ptrdiff_small by lia.
      destruct (Z.ltb_spec (k - 1) 0); [lia|].
      destruct (Z.leb_spec len (k - 1)); [lia|].
      destruct (Z.leb_spec k (k - 1)); [lia|].
      by rewrite andb_false_r.
    + replace (base + k - base) with k by lia.
      rewrite ptrdiff_small by lia.
      destruct (Z.ltb_spec k 0); [lia|].
      destruct (Z.leb_spec len k); [lia|].
      destruct (Z.eqb_spec k 0); [lia|].
      destruct (Z.leb_spec k k); [done|lia].
  - intros ->. apply Hat. replace (base - base) with 0 by lia.
    rewrite ptrdiff_small by lia.
    destruct (Z.ltb_spec 0 0); [lia|].
    destruct (Z.leb_spec len 0); [lia|done].
Qed.

End Classification.

(** C1, witness: trace 1 at [0x10000, 0x10000+64) with its loop at offset
    16. *)
Lemma offset_boundary_law_witness :
  @classified test_headers 10 sub_ffi 1 (example_host 16) (0x10000 - 1)
    example_process /\
  @classified test_headers 10 sub_ffi 1 (example_host 16) (0x10000 + 64)
    example_process /\
  (0 < 16 ->
   @classified test_headers 7 sub_head 1 (example_host 16)
     (0x10000 + 16 - 1) example_process /\
   @classified test_headers 8 sub_loop 1 (example_host 16) (0x10000 + 16)
     example_process) /\
  (16 = 0 ->
   @classified test_headers 7 sub_head 1 (example_host 16) 0x10000
     example_process).
Proof.
  apply (@offset_boundary_law test_headers (example_host 16) example_process
           example_store 0x10000 64 16).
  - reflexivity.
  - discriminate.
  - reflexivity.
  - split; reflexivity.
  - reflexivity.
  - reflexivity.
  - lia.
  - reflexivity.
Defined.

(** C1, counterexample: with loop offset [k = 0] (which satisfies
    [0 <= k < len]) a sample at [base + k = base] leaves both loop counters
    at 0 and bumps the head counters: it is classified head, not loop. *)
Lemma offset_boundary_k0_not_loop :
  0 <= mcloop (example_trace 0) < szmcode (example_trace 0) /\
  read example_store (vm_counter (@LJ_VMST_LOOP test_headers)) = Some 0 /\
  read example_store (trace_counter 1 sub_loop) = Some 0 /\
  @read_after test_headers (example_host 0) (mcode (example_trace 0) + 0)
    example_process (vm_counter (@LJ_VMST_LOOP test_headers)) = Some 0 /\
  @read_after test_headers (example_host 0) (mcode (example_trace 0) + 0)
    example_process (trace_counter 1 sub_loop) = Some 0 /\
  @read_after test_headers (example_host 0) (mcode (example_trace 0) + 0)
    example_process (vm_counter (@LJ_VMST_HEAD test_headers)) = Some 1 /\
  @read_after test_headers (example_host 0) (mcode (example_trace 0) + 0)
    example_process (trace_counter 1 sub_head) = Some 1.
Proof. repeat split; vm_compute; congruence. Qed.

(** ** Attribution of a sample to a trace *)

Section Attribution.
Context `{Headers}.

(** The index computed at line 75, for a positive trace number. *)
Lemma trace_bucket_overflow (t : Z) :
  0 < t ->
  (trace_bucket t = 0 <-> LJ_VMPROFILE_TRACE_MAX < t) /\
  (t <= LJ_VMPROFILE_TRACE_MAX -> trace_bucket t = t) /\
  trace_bucket LJ_VMPROFILE_TRACE_MAX = LJ_VMPROFILE_TRACE_MAX.
Proof.
  intros Ht. unfold trace_bucket.
  destruct (Z.ltb_spec LJ_VMPROFILE_TRACE_MAX t);
    destruct (Z.ltb_spec LJ_VMPROFILE_TRACE_MAX LJ_VMPROFILE_TRACE_MAX);
    repeat split; intros; lia.
Qed.

(** C3: with an active store and an attributed trace, the handler
    increments exactly one global counter and exactly one sub-counter of
    the trace's bucket, and the two form one of the fixed pairs; in
    collector mode it is the pair (JGC, gc), and in interpreter mode it is
    (INTERP, interp), whose global bucket is none of the JIT buckets. *)
Theorem sample_pair_matching (G : GG_State) (ip : Z) (w : Process)
    (P : VMProfile) (T : GCtrace) :
  enum_ok = true ->
  profile w <> 0 -> mem w !! profile w = Some P -> wf_profile P ->
  0 < resolve_trace (g G) ->
  traceref (J G) (resolve_trace (g G)) = Some T ->
  exists i f,
    classified i f (resolve_trace (g G)) G ip w /\
    (i, f) ∈ matchings /\
    (Z.lnot (vmstate (g G)) = LJ_VMST_GC ->
     i = LJ_VMST_JGC /\ f = sub_gc) /\
    (Z.lnot (vmstate (g G)) = LJ_VMST_INTERP ->
     i = LJ_VMST_INTERP /\ f = sub_interp /\
     i ∉ [LJ_VMST_JGC; LJ_VMST_FFI; LJ_VMST_LOOP; LJ_VMST_HEAD]).
Proof.
  intros Hok Hp HP Hwf Ht HT.
  destruct (classify (g G) T ip) as [i f] eqn:Hcl.
  exists i, f. split; [by eapply classified_intro|].
  split; [rewrite <- Hcl; apply classify_matchings|].
  pose proof (interp_not_jit Hok) as Hij.
  pose proof (enum_ok_distinct Hok) as Hnd.
  unfold vmst_names in Hnd. apply NoDup_cons in Hnd as [Hnotin _].
  rewrite !not_elem_of_cons in Hnotin.
  unfold classify in Hcl. split.
  - intros Hgc. rewrite Hgc, Z.eqb_refl in Hcl. by injection Hcl as <- <-.
  - intros Hin. rewrite Hin in Hcl.
    destruct (Z.eqb_spec LJ_VMST_INTERP LJ_VMST_GC); [tauto|].
    rewrite Z.eqb_refl in Hcl. injection Hcl as <- <-.
    do 2 (split; [done|]). rewrite !not_elem_of_cons, elem_of_nil. tauto.
Qed.

(** C8 (as amended): a handler invocation on a valid host state returns,
    leaves every counter it does not touch at its value, and increases
    every counter it touches by exactly one provided that counter is below
    [2^64 - 1]; under that proviso no counter decreases. *)
Theorem counters_monotonic (G : GG_State) (ip : Z) (w : Process)
    (P : VMProfile) :
  enum_ok = true ->
  profile w <> 0 -> mem w !! profile w = Some P -> wf_profile P ->
  valid_sample G ->
  exists P' cs,
    store_after G ip w = Some P' /\ incremented cs P P' /\ cs <> [] /\
    forall c x,
      read P c = Some x -> 0 <= x -> (c ∈ cs -> x < 2 ^ 64 - 1) ->
      exists x', read P' c = Some x' /\ x <= x' /\
                 (c ∈ cs -> x' = x + 1) /\ (c ∉ cs -> x' = x).
Proof.
  intros Hok Hp HP Hwf Hvalid. unfold valid_sample in Hvalid.
  destruct (Z.ltb_spec 0 (resolve_trace (g G))) as [Ht|Ht].
  - destruct Hvalid as [T HT].
    destruct (classify (g G) T ip) as [i f] eqn:Hcl.
    destruct (classified_intro G ip w P T i f Hok Hp HP Hwf Ht HT Hcl)
      as (P0 & P' & w' & HP0 & Hrun & Hprof & Hmem & Hinc).
    assert (P0 = P) as -> by congruence.
    exists P', [vm_counter i;
                trace_counter (trace_bucket (resolve_trace (g G))) f].
    split; [|split; [done|split; [done|]]].
    + unfold store_after. rewrite Hrun, Hprof, Hmem.
      apply lookup_insert_eq.
    + intros c x. by apply incremented_values.
  - destruct (global_counted G ip w P Hp HP Hwf Ht Hvalid)
      as (P' & Hrun & Hinc).
    exists P', [vm_counter (Z.lnot (vmstate (g G)))].
    split; [|split; [done|split; [done|]]].
    + unfold store_after. rewrite Hrun. apply lookup_insert_eq.
    + intros c x. by apply incremented_values.
Qed.

(** C9: with a null [profile] pointer the handler returns without writing:
    the whole process state is unchanged. *)
Theorem no_store_no_write (G : GG_State) (ip : Z) (w : Process) :
  profile w = 0 -> vmprofile_signal G ip w = Some w.
Proof. intros Hp. unfold vmprofile_signal. by rewrite Hp. Qed.

End Attribution.

(** C10: [vmprofile_set_profile] makes the region the active store and
    writes magic [0x1d50f007], major 3, minor 0 over whatever the header
    held; the counters of the region, and every other object in memory,
    are unchanged. *)
Theorem set_profile_stamps (counters : Z) (w : Process) (P : VMProfile) :
  mem w !! counters = Some P ->
  exists w' P',
    vmprofile_set_profile counters w = Some w' /\
    profile w' = counters /\
    mem w' = <[counters := P']> (mem w) /\
    magic P' = 0x1d50f007 /\ major P' = 3 /\ minor P' = 0 /\
    vm P' = vm P /\ trace P' = trace P /\
    (forall c, read P' c = read P c).
Proof.
  intros HP. unfold vmprofile_set_profile. simpl. rewrite HP.
  eexists; eexists. split; [done|]. simpl. repeat split; done.
Qed.

(** C3, witness: trace 1 interrupted in its loop. *)
Lemma sample_pair_matching_witness :
  exists i f,
    @classified test_headers i f (@resolve_trace test_headers (g (example_host 16)))
      (example_host 16) (0x10000 + 20) example_process /\
    (i, f) ∈ @matchings test_headers /\
    (Z.lnot (vmstate (g (example_host 16))) = @LJ_VMST_GC test_headers ->
     i = @LJ_VMST_JGC test_headers /\ f = sub_gc) /\
    (Z.lnot (vmstate (g (example_host 16))) = @LJ_VMST_INTERP test_headers ->
     i = @LJ_VMST_INTERP test_headers /\ f = sub_interp /\
     i ∉ [@LJ_VMST_JGC test_headers; @LJ_VMST_FFI test_headers;
          @LJ_VMST_LOOP test_headers; @LJ_VMST_HEAD test_headers]).
Proof.
  apply (@sample_pair_matching test_headers (example_host 16) (0x10000 + 20)
           example_process example_store (example_trace 16)).
  - reflexivity.
  - discriminate.
  - reflexivity.
  - split; reflexivity.
  - reflexivity.
  - reflexivity.
Defined.

(** C8, witness: a sample of the interpreter on the zeroed store. *)
Lemma counters_monotonic_witness :
  exists P' cs,
    @store_after test_headers example_interp 0 example_process = Some P' /\
    incremented cs example_store P' /\ cs <> [] /\
    forall c x,
      read example_store c = Some x -> 0 <= x ->
      (c ∈ cs -> x < 2 ^ 64 - 1) ->
      exists x', read P' c = Some x' /\ x <= x' /\
                 (c ∈ cs -> x' = x + 1) /\ (c ∉ cs -> x' = x).
Proof.
  apply (@counters_monotonic test_headers example_interp 0 example_process
           example_store).
  - reflexivity.
  - discriminate.
  - reflexivity.
  - split; reflexivity.
  - vm_compute. split; [discriminate|reflexivity].
Defined.

(** C8, counterexample: the interpreter counter of [saturated_store] holds
    [2^64 - 1]; one sample of the interpreter on this well-formed store
    leaves it at 0, a smaller value. *)
Lemma counter_wraps_at_max :
  @wf_profile test_headers saturated_store /\
  @valid_sample test_headers example_interp /\
  read saturated_store (vm_counter (@LJ_VMST_INTERP test_headers))
  = Some (2 ^ 64 - 1) /\
  @read_after test_headers example_interp 0 saturated_process
    (vm_counter (@LJ_VMST_INTERP test_headers)) = Some 0 /\
  0 < 2 ^ 64 - 1.
Proof.
  split; [split; reflexivity|].
  split; [vm_compute; split; [discriminate|reflexivity]|].
  repeat split; reflexivity.
Qed.

(** C9, witness: the example process before any store is selected. *)
Lemma no_store_no_write_witness :
  profile (with_profile 0 example_process) = 0 /\
  @vmprofile_signal test_headers (example_host 16) 0x10000
    (with_profile 0 example_process)
  = Some (with_profile 0 example_process).
Proof.
  split; [reflexivity|].
  apply (@no_store_no_write test_headers (example_host 16) 0x10000
           (with_profile 0 example_process)).
  reflexivity.
Defined.

(** C10, witness: installing the saturated store keeps its counters. *)
Lemma set_profile_stamps_witness :
  mem saturated_process !! 4096 = Some saturated_store /\
  exists w' P',
    vmprofile_set_profile 4096 saturated_process = Some w' /\
    profile w' = 4096 /\
    mem w' = <[4096 := P']> (mem saturated_process) /\
    magic P' = 0x1d50f007 /\ major P' = 3 /\ minor P' = 0 /\
    vm P' = vm saturated_store /\ trace P' = trace saturated_store /\
    (forall c, read P' c = read saturated_store c).
Proof.
  split; [reflexivity|].
  apply (set_profile_stamps 4096 saturated_process saturated_store).
  reflexivity.
Defined.

(** ** Output of the handler *)

Section Output.
Context `{Headers}.

(** Every sample attributed to a trace goes through the [printf] of line
    80 before any counter is touched. *)
Lemma attributed_sample_prints (G : GG_State) (ip : Z) (w w' : Process)
    (P : VMProfile) :
  profile w <> 0 -> mem w !! profile w = Some P ->
  0 < resolve_trace (g G) ->
  vmprofile_signal G ip w = Some w' ->
  stdout w' =
  stdout w ++
  [{| fmt := debug_format;
      args := [resolve_trace (g G);
               Z.b2z (Z.lnot (vmstate (g G)) =? LJ_VMST_INTERP)] |}].
Proof.
  intros Hp HP Ht. destruct (traceref (J G) (resolve_trace (g G)))
    as [T|] eqn:HT.
  - rewrite (vmprofile_signal_attributed G ip w P T) by done.
    destruct (bump _ _ _ P); [|done]. by intros [= <-].
  - unfold vmprofile_signal.
    destruct (Z.eqb_spec (profile w) 0); [done|]. rewrite HP.
    destruct (Z.ltb_spec 0 (resolve_trace (g G))); [|lia].
    by rewrite HT.
Qed.

(** A sample without a trace prints nothing. *)
Lemma global_sample_silent (G : GG_State) (ip : Z) (w w' : Process)
    (P : VMProfile) :
  profile w <> 0 -> mem w !! profile w = Some P ->
  resolve_trace (g G) <= 0 ->
  vmprofile_signal G ip w = Some w' ->
  stdout w' = stdout w.
Proof.
  intros Hp HP Ht. rewrite (vmprofile_signal_global G ip w P) by done.
  destruct (vm_incr _ P); [|done]. by intros [= <-].
Qed.

End Output.

(** ** Which trace a sample goes to *)

Lemma incr64_neq (x : Z) : incr64 x <> x.
Proof.
  unfold incr64. intros Heq.
  pose proof (Z.mod_pos_bound (x + 1) (2 ^ 64) ltac:(lia)) as Hb.
  rewrite Heq in Hb.
  destruct (decide (x = 2 ^ 64 - 1)) as [->|Hne]; [done|].
  rewrite Z.mod_small in Heq by lia. lia.
Qed.

Section Attribution2.
Context `{Headers}.

(** The counters an invocation increments are determined by it. *)
Lemma counts_functional (cs cs' : list counter) (G : GG_State) (ip : Z)
    (w : Process) :
  counts cs G ip w -> counts cs' G ip w -> forall c, c ∈ cs -> c ∈ cs'.
Proof.
  intros (P1 & P1' & w1 & HP1 & Hrun1 & _ & Hmem1 & Hinc1)
         (P2 & P2' & w2 & HP2 & Hrun2 & _ & Hmem2 & Hinc2) c Hc.
  assert (P2 = P1) as -> by congruence.
  assert (w2 = w1) as -> by congruence.
  assert (P2' = P1') as ->.
  { assert (Hl : mem w1 !! profile w = Some P1')
      by (rewrite Hmem1; apply lookup_insert_eq).
    rewrite Hmem2, lookup_insert_eq in Hl. congruence. }
  destruct Hinc1 as (_ & _ & _ & _ & _ & Hs1 & Hr1).
  destruct Hinc2 as (_ & _ & _ & _ & _ & _ & Hr2).
  destruct (decide (c ∈ cs')) as [|Hn]; [done|]. exfalso.
  destruct (Hs1 c Hc) as [x Hx]. specialize (Hr1 c). specialize (Hr2 c).
  rewrite bool_decide_eq_true_2 in Hr1 by done.
  rewrite bool_decide_eq_false_2 in Hr2 by done.
  rewrite Hr2, Hx in Hr1. simpl in Hr1. injection Hr1 as Hr1.
  by apply (incr64_neq x).
Qed.

(** A sample whose resolved trace number [t] is positive is attributed to
    trace [t]. *)
Lemma attributed_intro (G : GG_State) (ip : Z) (w : Process)
    (P : VMProfile) (t : Z) :
  enum_ok = true ->
  profile w <> 0 -> mem w !! profile w = Some P -> wf_profile P ->
  resolve_trace (g G) = t -> 0 < t ->
  attributed t G ip w.
Proof.
  intros Hok Hp HP Hwf <- Ht. unfold attributed.
  destruct (traceref (J G) (resolve_trace (g G))) as [T|] eqn:HT.
  - destruct (classify (g G) T ip) as [i f] eqn:Hcl.
    pose proof (classified_intro G ip w P T i f Hok Hp HP Hwf Ht HT Hcl)
      as Hc.
    destruct Hc as (P0 & P' & w' & HP0 & Hrun & Hrest).
    exists i, f, w'. split; [done|]. split.
    + by exists P0, P', w'.
    + by apply (attributed_sample_prints G ip w w' P).
  - unfold vmprofile_signal.
    destruct (Z.eqb_spec (profile w) 0); [done|]. rewrite HP.
    destruct (Z.ltb_spec 0 (resolve_trace (g G))); [|lia].
    by rewrite HT.
Qed.

(** C2: on an active store the sample is attributed in this order.  A
    positive mode word is the trace.  Otherwise, in collector mode, the
    trace is [gcvmstate] (attributed when it is positive).  Otherwise, in
    interpreter mode with [lasttrace > 0], the trace is [lasttrace].
    Otherwise there is none.  An attributed sample is looked up, counted in
    the bucket of that trace and printed under its number; when no trace is
    attributed the handler increments the global counter indexed by the
    mode [~vmstate] in the store and changes nothing else of the
    process. *)
Theorem trace_resolution_order (G : GG_State) (ip : Z) (w : Process)
    (P : VMProfile) :
  enum_ok = true ->
  profile w <> 0 -> mem w !! profile w = Some P -> wf_profile P ->
  (0 < vmstate (g G) ->
   resolve_trace (g G) = vmstate (g G) /\
   attributed (vmstate (g G)) G ip w) /\
  (vmstate (g G) <= 0 -> Z.lnot (vmstate (g G)) = LJ_VMST_GC ->
   resolve_trace (g G) = gcvmstate (g G) /\
   (0 < gcvmstate (g G) -> attributed (gcvmstate (g G)) G ip w)) /\
  (vmstate (g G) <= 0 -> Z.lnot (vmstate (g G)) <> LJ_VMST_GC ->
   Z.lnot (vmstate (g G)) = LJ_VMST_INTERP -> 0 < lasttrace (g G) ->
   resolve_trace (g G) = lasttrace (g G) /\
   attributed (lasttrace (g G)) G ip w) /\
  (vmstate (g G) <= 0 -> Z.lnot (vmstate (g G)) <> LJ_VMST_GC ->
   ~ (Z.lnot (vmstate (g G)) = LJ_VMST_INTERP /\ 0 < lasttrace (g G)) ->
   resolve_trace (g G) = 0) /\
  (resolve_trace (g G) <= 0 ->
   0 <= Z.lnot (vmstate (g G)) < LJ_VMST__MAX ->
   exists P',
     vmprofile_signal G ip w
     = Some (with_mem (<[profile w := P']> (mem w)) w) /\
     incremented [vm_counter (Z.lnot (vmstate (g G)))] P P').
Proof.
  intros Hok Hp HP Hwf.
  assert (Hres :
    (0 < vmstate (g G) -> resolve_trace (g G) = vmstate (g G)) /\
    (vmstate (g G) <= 0 -> Z.lnot (vmstate (g G)) = LJ_VMST_GC ->
     resolve_trace (g G) = gcvmstate (g G)) /\
    (vmstate (g G) <= 0 -> Z.lnot (vmstate (g G)) <> LJ_VMST_GC ->
     Z.lnot (vmstate (g G)) = LJ_VMST_INTERP -> 0 < lasttrace (g G) ->
     resolve_trace (g G) = lasttrace (g G)) /\
    (vmstate (g G) <= 0 -> Z.lnot (vmstate (g G)) <> LJ_VMST_GC ->
     ~ (Z.lnot (vmstate (g G)) = LJ_VMST_INTERP /\ 0 < lasttrace (g G)) ->
     resolve_trace (g G) = 0)).
  { unfold resolve_trace.
    destruct (Z.ltb_spec 0 (vmstate (g G)));
      destruct (Z.eqb_spec (Z.lnot (vmstate (g G))) LJ_VMST_GC);
      destruct (Z.eqb_spec (Z.lnot (vmstate (g G))) LJ_VMST_INTERP);
      destruct (Z.ltb_spec 0 (lasttrace (g G))); simpl;
      repeat split; intros; (done || lia || tauto). }
  destruct Hres as (H1 & H2 & H3 & H4).
  split; [|split; [|split; [|split]]].
  - intros Hvm. split; [by apply H1|].
    by apply (attributed_intro G ip w P); [..|apply H1|].
  - intros Hvm Hgc. split; [by apply H2|]. intros Hpos.
    by apply (attributed_intro G ip w P); [..|apply H2|].
  - intros Hvm Hgc Hin Hlast. split; [by apply H3|].
    by apply (attributed_intro G ip w P); [..|apply H3|].
  - done.
  - intros Ht Hm. by apply global_counted.
Qed.

(** C4: the per-trace counter of a sample attributed to trace [t] is in
    entry 0 of the trace table exactly when [t] exceeds
    [LJ_VMPROFILE_TRACE_MAX], and in entry [t] otherwise; a trace number
    equal to the bound is counted in its own entry. *)
Theorem sample_bucket_overflow (G : GG_State) (ip : Z) (w : Process)
    (P : VMProfile) (T : GCtrace) :
  enum_ok = true ->
  profile w <> 0 -> mem w !! profile w = Some P -> wf_profile P ->
  0 < resolve_trace (g G) ->
  traceref (J G) (resolve_trace (g G)) = Some T ->
  (LJ_VMPROFILE_TRACE_MAX < resolve_trace (g G) ->
   exists i f, counts [vm_counter i; trace_counter 0 f] G ip w) /\
  (resolve_trace (g G) <= LJ_VMPROFILE_TRACE_MAX ->
   exists i f,
     counts [vm_counter i; trace_counter (resolve_trace (g G)) f] G ip w) /\
  ((exists i f, counts [vm_counter i; trace_counter 0 f] G ip w)
   <-> LJ_VMPROFILE_TRACE_MAX < resolve_trace (g G)) /\
  (resolve_trace (g G) = LJ_VMPROFILE_TRACE_MAX ->
   exists i f,
     counts [vm_counter i; trace_counter LJ_VMPROFILE_TRACE_MAX f] G ip w).
Proof.
  intros Hok Hp HP Hwf Ht HT.
  destruct (classify (g G) T ip) as [i f] eqn:Hcl.
  pose proof (classified_intro G ip w P T i f Hok Hp HP Hwf Ht HT Hcl) as Hc.
  unfold classified in Hc.
  destruct (trace_bucket_overflow (resolve_trace (g G)) Ht)
    as (Hzero & Hsame & _).
  assert (Hover : LJ_VMPROFILE_TRACE_MAX < resolve_trace (g G) ->
                  exists i f, counts [vm_counter i; trace_counter 0 f] G ip w).
  { intros Hlt. exists i, f. apply Hzero in Hlt. by rewrite Hlt in Hc. }
  assert (Hown : resolve_trace (g G) <= LJ_VMPROFILE_TRACE_MAX ->
                 exists i f,
                   counts [vm_counter i;
                           trace_counter (resolve_trace (g G)) f] G ip w).
  { intros Hle. exists i, f. by rewrite (Hsame Hle) in Hc. }
  split; [done|]. split; [done|]. split.
  - split; [|done]. intros (i0 & f0 & Hc0).
    destruct (Z.ltb_spec LJ_VMPROFILE_TRACE_MAX (resolve_trace (g G)))
      as [|Hle]; [done|]. exfalso.
    destruct (Hown Hle) as (i1 & f1 & Hc1).
    assert (Hin : trace_counter 0 f0
                  ∈ [vm_counter i1; trace_counter (resolve_trace (g G)) f1]).
    { apply (counts_functional _ _ G ip w Hc0 Hc1).
      rewrite !elem_of_cons. tauto. }
    rewrite !elem_of_cons, elem_of_nil in Hin.
    destruct Hin as [[=]|[[= Hz _]|[]]]. lia.
  - intros Heq. rewrite <- Heq. apply Hown. lia.
Qed.

End Attribution2.

(** C2, witness: trace 1 running; the collector running for trace 1; the
    interpreter entered at the end of trace 1; the interpreter with no
    finished trace. *)
Lemma trace_resolution_order_witness :
  @attributed test_headers 1 (example_host 16) (0x10000 + 20)
    example_process /\
  @attributed test_headers 1 example_gc 0 example_process /\
  @attributed test_headers 1 example_post_trace 0 example_process /\
  exists P',
    @vmprofile_signal test_headers example_interp 0 example_process
    = Some (with_mem (<[profile example_process := P']>
                        (mem example_process)) example_process) /\
    incremented [vm_counter (Z.lnot (vmstate (g example_interp)))]
      example_store P'.
Proof.
  split; [|split; [|split]].
  - destruct (@trace_resolution_order test_headers (example_host 16)
                (0x10000 + 20) example_process example_store)
      as (H1 & _);
      [reflexivity|discriminate|reflexivity|split; reflexivity|].
    apply H1. reflexivity.
  - destruct (@trace_resolution_order test_headers example_gc 0
                example_process example_store)
      as (_ & H2 & _);
      [reflexivity|discriminate|reflexivity|split; reflexivity|].
    apply H2; [discriminate|reflexivity|reflexivity].
  - destruct (@trace_resolution_order test_headers example_post_trace 0
                example_process example_store)
      as (_ & _ & H3 & _);
      [reflexivity|discriminate|reflexivity|split; reflexivity|].
    apply H3; [discriminate|discriminate|reflexivity|reflexivity].
  - destruct (@trace_resolution_order test_headers example_interp 0
                example_process example_store)
      as (_ & _ & _ & _ & H5);
      [reflexivity|discriminate|reflexivity|split; reflexivity|].
    apply H5; [discriminate|split; [discriminate|reflexivity]].
Defined.

(** C4, witness: with a bound of 4, a sample of trace 5 is counted in entry
    0, a sample of trace 4 in entry 4 and not in entry 0. *)
Lemma sample_bucket_overflow_witness :
  (exists i f,
     @counts test_headers [vm_counter i; trace_counter 0 f]
       (example_host_of 5) (0x10000 + 20) example_process) /\
  (exists i f,
     @counts test_headers
       [vm_counter i; trace_counter (@LJ_VMPROFILE_TRACE_MAX test_headers) f]
       (example_host_of 4) (0x10000 + 20) example_process) /\
  ~ (exists i f,
       @counts test_headers [vm_counter i; trace_counter 0 f]
         (example_host_of 4) (0x10000 + 20) example_process).
Proof.
  split; [|split].
  - destruct (@sample_bucket_overflow test_headers (example_host_of 5)
                (0x10000 + 20) example_process example_store
                (example_trace 16))
      as (H1 & _);
      [reflexivity|discriminate|reflexivity|split; reflexivity
      |reflexivity|reflexivity|].
    apply H1. reflexivity.
  - destruct (@sample_bucket_overflow test_headers (example_host_of 4)
                (0x10000 + 20) example_process example_store
                (example_trace 16))
      as (_ & _ & _ & H4);
      [reflexivity|discriminate|reflexivity|split; reflexivity
      |reflexivity|reflexivity|].
    apply H4. reflexivity.
  - destruct (@sample_bucket_overflow test_headers (example_host_of 4)
                (0x10000 + 20) example_process example_store
                (example_trace 16))
      as (_ & _ & H3 & _);
      [reflexivity|discriminate|reflexivity|split; reflexivity
      |reflexivity|reflexivity|].
    intros Hc. apply H3 in Hc. revert Hc. vm_compute. discriminate.
Defined.

(** C7: the handler does perform formatted output.  On the example process,
    whose output is empty, a sample taken while trace 1 runs returns with
    one [printf] call written to the standard output. *)
Theorem handler_prints :
  stdout example_process = [] /\
  stdout <$> @vmprofile_signal test_headers (example_host 16) (0x10000 + 20)
               example_process
  = Some [{| fmt := debug_format; args := [1; 0] |}].
Proof. split; reflexivity. Qed.

(** ** Timer and handler management *)

Lemma stop_timer_disarms (w : Process) :
  itimer_prof (stop_timer w) =
  {| it_interval := {| tv_sec := 0; tv_usec := 0 |};
     it_value := {| tv_sec := 0; tv_usec := 0 |} |}.
Proof. reflexivity. Qed.

(** [stop_timer] passes a null [act]: the disposition of SIGPROF stays what
    it was, and the saved one is overwritten with it. *)
Lemma stop_timer_sigprof (w : Process) :
  sigprof (stop_timer w) = sigprof w /\
  oldsa (state (stop_timer w)) = sigprof w.
Proof. split; reflexivity. Qed.

Lemma start_timer_installs (interval : Z) (w : Process) :
  sa_sigaction (sigprof (start_timer interval w)) = sa_vmprofile_signal /\
  oldsa (state (start_timer interval w)) = sigprof w.
Proof.
  unfold start_timer, setitimer_PROF.
  destruct (_ && _); split; reflexivity.
Qed.

(** C5: after [start] and [stop] on a process that had its own SIGPROF
    handler, the timer is disarmed, but the handler of SIGPROF is still
    [vmprofile_signal], not the one installed before [start]; the saved
    disposition has been overwritten by the profiler's. *)
Theorem stop_does_not_restore_handler :
  let w1 := (luaJIT_vmprofile_start example_L hooked_process).2 in
  let w2 := (luaJIT_vmprofile_stop example_L w1).2 in
  sigprof hooked_process = own_handler /\
  itimer_prof w1 =
    {| it_interval := {| tv_sec := 0; tv_usec := 1000 |};
       it_value := {| tv_sec := 0; tv_usec := 1000 |} |} /\
  oldsa (state w1) = own_handler /\
  itimer_prof w2 =
    {| it_interval := {| tv_sec := 0; tv_usec := 0 |};
       it_value := {| tv_sec := 0; tv_usec := 0 |} |} /\
  sa_sigaction (sigprof w2) = sa_vmprofile_signal /\
  sigprof w2 <> own_handler /\
  oldsa (state w2) = sigprof w1.
Proof. repeat split; try reflexivity. discriminate. Qed.

(** ** Opening a counter file *)

Section Open.
Context `{Headers}.

Lemma zero_profile_read (c : counter) (x : Z) :
  read zero_profile c = Some x -> x = 0.
Proof.
  destruct c as [i|b f]; simpl; unfold index.
  - destruct (i <? 0); [done|]. by intros [-> _]%lookup_replicate.
  - destruct (b <? 0); [done|].
    destruct (replicate _ zero_count !! Z.to_nat b) as [c|] eqn:Hc; [|done].
    apply lookup_replicate in Hc as [-> _]. simpl. intros [= <-].
    by destruct f.
Qed.

(** C6 (as amended): [luaJIT_vmprofile_open] returns one result.  It is a
    light userdata exactly when the three system calls succeeded; the
    region it points to is then mapped with length [sizeof(VMProfile)] and
    entirely zero, header included (magic and version are 0, not stamped).
    Otherwise the result is nil, and the mappings and the memory are as
    before the call. *)
Theorem open_zeroes_or_nil (L : lua_State) (str : string) (os : syscalls)
    (w : Process) :
  let r := luaJIT_vmprofile_open L str os w in
  r.1.1 = 1 /\
  match base r.1.2 with
  | lightudV p =>
      open_ret os <> -1 /\ ftruncate_ret os <> -1 /\
      (exists contents, mmap_ret os = Some (p, contents)) /\
      mappings r.2 !! p = Some vmprofile_get_profile_size /\
      mem r.2 !! p = Some zero_profile /\
      magic zero_profile = 0 /\ major zero_profile = 0 /\
      minor zero_profile = 0 /\
      (forall c x, read zero_profile c = Some x -> x = 0)
  | nilV =>
      (open_ret os = -1 \/ ftruncate_ret os = -1 \/ mmap_ret os = None) /\
      mappings r.2 = mappings w /\ mem r.2 = mem w
  end.
Proof.
  unfold luaJIT_vmprofile_open.
  destruct (Z.eqb_spec (open_ret os) (-1)) as [Hfd|Hfd]; simpl.
  - split; [done|]. split; [by left|done].
  - destruct (Z.eqb_spec (ftruncate_ret os) (-1)) as [Hft|Hft]; simpl.
    + split; [done|]. split; [by right; left|done].
    + destruct (mmap_ret os) as [[ptr contents]|]; simpl.
      * split; [done|]. do 2 (split; [done|]). split; [by eexists|].
        split; [apply lookup_insert_eq|]. split; [apply lookup_insert_eq|].
        do 3 (split; [done|]). apply zero_profile_read.
      * split; [done|]. split; [by right; right|done].
Qed.

End Open.

(** C6, counterexample: all three system calls succeed on a file that held
    a stamped store; the region handed back has magic 0 and major version
    0, so it does not carry the magic value [0x1d50f007] nor the version. *)
Lemma open_does_not_stamp :
  let r := @luaJIT_vmprofile_open test_headers example_L "vmprofile"
             syscalls_ok example_process in
  base r.1.2 = lightudV 0x7f0000000000 /\
  magic <$> mem r.2 !! 0x7f0000000000 = Some 0 /\
  major <$> mem r.2 !! 0x7f0000000000 = Some 0 /\
  magic <$> mem r.2 !! 0x7f0000000000 <> Some 0x1d50f007 /\
  major <$> mem r.2 !! 0x7f0000000000 <> Some 3.
Proof. repeat split; try reflexivity; vm_compute; discriminate. Qed.

(** ** Further properties of the handler *)

Lemma total_insert (l : list Z) (n : nat) (x y : Z) :
  l !! n = Some x -> total (<[n := y]> l) = total l - x + y.
Proof.
  revert n. induction l as [|a l IH]; intros [|n] Hl; simpl in *; try done.
  - injection Hl as ->. lia.
  - rewrite (IH n Hl). lia.
Qed.

Lemma total_nonneg (l : list Z) :
  Forall (fun x => 0 <= x) l -> 0 <= total l.
Proof. induction 1; simpl; lia. Qed.

Lemma total_bounds_element (l : list Z) (n : nat) (x : Z) :
  Forall (fun x => 0 <= x) l -> l !! n = Some x -> 0 <= x <= total l.
Proof.
  intros Hall. revert n. induction Hall as [|a l Ha Hall IH];
    intros [|n] Hl; simpl in *; try done.
  - injection Hl as ->. pose proof (total_nonneg l Hall). lia.
  - specialize (IH n Hl). lia.
Qed.

Lemma index_lookup {A} (l : list A) (i : Z) (x : A) :
  index l i = Some x -> l !! Z.to_nat i = Some x.
Proof. unfold index. by destruct (i <? 0). Qed.

Section HandlerShape.
Context `{Headers}.

Lemma vm_incr_result (i : Z) (P P' : VMProfile) :
  vm_incr i P = Some P' ->
  exists x, index (vm P) i = Some x /\
            P' = with_vm (<[Z.to_nat i := incr64 x]> (vm P)) P.
Proof.
  unfold vm_incr. destruct (index (vm P) i) as [x|]; [|done].
  intros [= <-]. by exists x.
Qed.

Lemma bump_result (i b : Z) (f : subcounter) (P P' : VMProfile) :
  bump i b f P = Some P' ->
  exists x c,
    index (vm P) i = Some x /\ index (trace P) b = Some c /\
    P' = {| magic := magic P; major := major P; minor := minor P;
            vm := <[Z.to_nat i := incr64 x]> (vm P);
            trace := <[Z.to_nat b := incr_sub f c]> (trace P) |}.
Proof.
  unfold bump. destruct (vm_incr i P) as [P1|] eqn:H1; [|done].
  apply vm_incr_result in H1 as (x & Hx & ->).
  unfold count_incr. simpl.
  destruct (index (trace P) b) as [c|]; [|done].
  intros [= <-]. by exists x, c.
Qed.

(** Every way the handler can return on an active store. *)
Lemma handler_returns (G : GG_State) (ip : Z) (w w' : Process)
    (P : VMProfile) :
  profile w <> 0 -> mem w !! profile w = Some P ->
  vmprofile_signal G ip w = Some w' ->
  (resolve_trace (g G) <= 0 /\
   exists P', vm_incr (Z.lnot (vmstate (g G))) P = Some P' /\
              w' = store P' w) \/
  (0 < resolve_trace (g G) /\
   exists T P',
     traceref (J G) (resolve_trace (g G)) = Some T /\
     bump (classify (g G) T ip).1 (trace_bucket (resolve_trace (g G)))
       (classify (g G) T ip).2 P = Some P' /\
     w' = store P'
            (printf debug_format
               [resolve_trace (g G);
                Z.b2z (Z.lnot (vmstate (g G)) =? LJ_VMST_INTERP)] w)).
Proof.
  intros Hp HP Hrun.
  destruct (Z.ltb_spec 0 (resolve_trace (g G))) as [Ht|Ht].
  - right. split; [done|].
    destruct (traceref (J G) (resolve_trace (g G))) as [T|] eqn:HT.
    + rewrite (vmprofile_signal_attributed G ip w P T) in Hrun by done.
      destruct (bump _ _ _ P) as [P'|] eqn:Hb; [|done].
      injection Hrun as <-. by exists T, P'.
    + unfold vmprofile_signal in Hrun.
      destruct (Z.eqb_spec (profile w) 0); [done|]. rewrite HP in Hrun.
      destruct (Z.ltb_spec 0 (resolve_trace (g G))); [|lia].
      by rewrite HT in Hrun.
  - left. split; [done|].
    rewrite (vmprofile_signal_global G ip w P) in Hrun by done.
    destruct (vm_incr _ P) as [P'|] eqn:Hv; [|done].
    injection Hrun as <-. by exists P'.
Qed.

(** The store after a returning invocation. *)
Lemma handler_store (G : GG_State) (ip : Z) (w w' : Process)
    (P : VMProfile) :
  profile w <> 0 -> mem w !! profile w = Some P ->
  vmprofile_signal G ip w = Some w' ->
  exists P' cs,
    profile w' = profile w /\ mem w' = <[profile w := P']> (mem w) /\
    incremented cs P P'.
Proof.
  intros Hp HP Hrun.
  destruct (handler_returns G ip w w' P Hp HP Hrun)
    as [(_ & P' & Hv & ->)|(_ & T & P' & _ & Hb & ->)].
  - exists P', [vm_counter (Z.lnot (vmstate (g G)))].
    split; [done|]. split; [done|]. by apply vm_incr_incremented.
  - eexists P', _. split; [done|]. split; [done|].
    by apply bump_incremented.
Qed.

End HandlerShape.

Section HandlerProperties.
Context `{Headers}.

Lemma matchings_functional (i i' : Z) (f : subcounter) :
  (i, f) ∈ matchings -> (i', f) ∈ matchings -> i = i'.
Proof.
  unfold matchings. rewrite !elem_of_cons, !elem_of_nil.
  intros [[= -> ->]|[[= -> ->]|[[= -> ->]|[[= -> ->]|[[= -> ->]|[]]]]]]
         [[= ->]|[[= ->]|[[= ->]|[[= ->]|[[= ->]|[]]]]]]; done.
Qed.

(** One returning invocation, seen on the two arrays of the store. *)
Lemma handler_arrays (G : GG_State) (ip : Z) (w w' : Process)
    (P : VMProfile) :
  profile w <> 0 -> mem w !! profile w = Some P ->
  vmprofile_signal G ip w = Some w' ->
  exists P' i x,
    profile w' = profile w /\ mem w' !! profile w = Some P' /\
    magic P' = magic P /\ major P' = major P /\ minor P' = minor P /\
    index (vm P) i = Some x /\
    vm P' = <[Z.to_nat i := incr64 x]> (vm P) /\
    (trace P' = trace P \/
     exists b f c,
       (i, f) ∈ matchings /\ index (trace P) b = Some c /\
       trace P' = <[Z.to_nat b := incr_sub f c]> (trace P)).
Proof.
  intros Hp HP Hrun.
  destruct (handler_returns G ip w w' P Hp HP Hrun)
    as [(_ & P' & Hv & ->)|(_ & T & P' & _ & Hb & ->)].
  - apply vm_incr_result in Hv as (x & Hx & ->).
    eexists _, _, x. split; [done|]. split; [apply lookup_insert_eq|].
    do 3 (split; [done|]). split; [done|]. split; [done|]. by left.
  - pose proof (classify_matchings (g G) T ip) as Hin.
    destruct (classify (g G) T ip) as [i f]. simpl in Hb.
    apply bump_result in Hb as (x & c & Hx & Hc & ->).
    eexists _, i, x. split; [done|]. split; [apply lookup_insert_eq|].
    do 3 (split; [done|]). split; [done|]. split; [done|].
    right. by exists (trace_bucket (resolve_trace (g G))), f, c.
Qed.


(** X2: a handler invocation that returns leaves the header of the active
    store (magic, major, minor) and the sizes of its two arrays as they
    were; a well-formed store stays well-formed. *)
Theorem vmprofile_signal_keeps_header (G : GG_State) (ip : Z)
    (w w' : Process) (P : VMProfile) :
  profile w <> 0 -> mem w !! profile w = Some P ->
  vmprofile_signal G ip w = Some w' ->
  exists P',
    mem w' !! profile w' = Some P' /\
    magic P' = magic P /\ major P' = major P /\ minor P' = minor P /\
    length (vm P') = length (vm P) /\
    length (trace P') = length (trace P) /\
    (wf_profile P -> wf_profile P').
Proof.
  intros Hp HP Hrun.
  destruct (handler_store G ip w w' P Hp HP Hrun)
    as (P' & cs & Hprof & Hmem & Hinc).
  exists P'. split; [rewrite Hprof, Hmem; apply lookup_insert_eq|].
  pose proof (incremented_length cs P P' Hinc) as Hwf.
  destruct Hinc as (? & ? & ? & ? & ? & _). done.
Qed.

(** X3: on an active, well-formed store the handler returns exactly on the
    valid host states: if the attributed trace is missing from the trace
    table, or the mode of a sample without trace lies outside
    [0, LJ_VMST__MAX) (as for [vmstate = 0]), its behaviour is
    undefined. *)
Theorem vmprofile_signal_defined_iff (G : GG_State) (ip : Z) (w : Process)
    (P : VMProfile) :
  enum_ok = true ->
  profile w <> 0 -> mem w !! profile w = Some P -> wf_profile P ->
  is_Some (vmprofile_signal G ip w) <-> valid_sample G.
Proof.
  intros Hok Hp HP Hwf. unfold valid_sample. split.
  - intros [w' Hrun].
    destruct (handler_returns G ip w w' P Hp HP Hrun)
      as [(Ht & P' & Hv & _)|(Ht & T & P' & HT & _ & _)].
    + destruct (Z.ltb_spec 0 (resolve_trace (g G))); [lia|].
      apply vm_incr_result in Hv as (x & Hx & _).
      apply index_Some_range in Hx. destruct Hwf as [Hl _]. lia.
    + destruct (Z.ltb_spec 0 (resolve_trace (g G))); [|lia]. by eexists.
  - destruct (Z.ltb_spec 0 (resolve_trace (g G))) as [Ht|Ht].
    + intros [T HT]. destruct (classify (g G) T ip) as [i f] eqn:Hcl.
      destruct (classified_intro G ip w P T i f Hok Hp HP Hwf Ht HT Hcl)
        as (_ & _ & w' & _ & Hrun & _). by eexists.
    + intros Hm.
      destruct (global_counted G ip w P Hp HP Hwf Ht Hm) as (P' & Hrun & _).
      by eexists.
Qed.

(** X4: outside the machine code of a trace (mode word not positive) the
    interrupted instruction pointer plays no part: the handler does the
    same for any two values of it. *)
Theorem ip_irrelevant_outside_mcode (G : GG_State) (ip ip' : Z)
    (w : Process) :
  vmstate (g G) <= 0 ->
  vmprofile_signal G ip w = vmprofile_signal G ip' w.
Proof.
  intros Hvm. unfold vmprofile_signal.
  destruct (profile w =? 0); [done|].
  destruct (mem w !! profile w) as [P|]; [|done].
  destruct (Z.ltb_spec 0 (resolve_trace (g G))) as [Ht|Ht]; [|done].
  destruct (traceref (J G) (resolve_trace (g G))) as [T|]; [|done].
  destruct (Z.eqb_spec (Z.lnot (vmstate (g G))) LJ_VMST_GC); [done|].
  destruct (Z.eqb_spec (Z.lnot (vmstate (g G))) LJ_VMST_INTERP) as [|Hni];
    [done|].
  exfalso. unfold resolve_trace in Ht.
  destruct (Z.ltb_spec 0 (vmstate (g G))); [lia|].
  destruct (Z.eqb_spec (Z.lnot (vmstate (g G))) LJ_VMST_GC); [done|].
  destruct (Z.eqb_spec (Z.lnot (vmstate (g G))) LJ_VMST_INTERP); [done|].
  simpl in Ht. lia.
Qed.

(** X5: while the machine code of trace [T] runs, a sample whose
    instruction pointer lies outside [mcode, mcode+szmcode) counts as ffi;
    inside, it counts as loop when the trace has a loop ([mcloop <> 0]) and
    the pointer is at or after [mcode+mcloop], and as head otherwise; a
    trace without loop never gets a loop sample. *)
Theorem classification_by_region (G : GG_State) (ip : Z) (w : Process)
    (P : VMProfile) (T : GCtrace) :
  enum_ok = true ->
  profile w <> 0 -> mem w !! profile w = Some P -> wf_profile P ->
  0 < vmstate (g G) -> traceref (J G) (vmstate (g G)) = Some T ->
  - 2 ^ 63 <= ip - mcode T < 2 ^ 63 ->
  (ip < mcode T \/ mcode T + szmcode T <= ip ->
   classified LJ_VMST_FFI sub_ffi (vmstate (g G)) G ip w) /\
  (mcode T <= ip < mcode T + szmcode T -> mcloop T <> 0 ->
   mcode T + mcloop T <= ip ->
   classified LJ_VMST_LOOP sub_loop (vmstate (g G)) G ip w) /\
  (mcode T <= ip < mcode T + szmcode T ->
   mcloop T = 0 \/ ip < mcode T + mcloop T ->
   classified LJ_VMST_HEAD sub_head (vmstate (g G)) G ip w).
Proof.
  intros Hok Hp HP Hwf Hvm HT Hip.
  pose proof (resolve_trace_mcode (g G) Hvm) as Hres.
  assert (Hat : forall i f, classify (g G) T ip = (i, f) ->
                            classified i f (vmstate (g G)) G ip w).
  { intros i f Hcl. rewrite <- Hres.
    apply (classified_intro G ip w P T i f Hok Hp HP Hwf);
      [lia|by rewrite Hres|done]. }
  rewrite classify_mcode in Hat by done.
  rewrite ptrdiff_small in Hat by done.
  split; [|split].
  - intros Hout. apply Hat.
    destruct (Z.ltb_spec (ip - mcode T) 0); [done|].
    destruct (Z.leb_spec (szmcode T) (ip - mcode T)); [done|lia].
  - intros Hin Hl Hge. apply Hat.
    destruct (Z.ltb_spec (ip - mcode T) 0); [lia|].
    destruct (Z.leb_spec (szmcode T) (ip - mcode T)); [lia|].
    destruct (Z.eqb_spec (mcloop T) 0); [done|].
    destruct (Z.leb_spec (mcloop T) (ip - mcode T)); [done|lia].
  - intros Hin Hl. apply Hat.
    destruct (Z.ltb_spec (ip - mcode T) 0); [lia|].
    destruct (Z.leb_spec (szmcode T) (ip - mcode T)); [lia|].
    destruct (Z.eqb_spec (mcloop T) 0); [done|].
    destruct (Z.leb_spec (mcloop T) (ip - mcode T)); [lia|done].
Qed.

End HandlerProperties.

(** ** Totals kept by the handler *)

Lemma incr64_nonneg (x : Z) : 0 <= incr64 x.
Proof. unfold incr64. apply Z.mod_pos_bound. lia. Qed.

Lemma sub_total_insert (f f1 : subcounter) (b : Z) (c : VMProfileTraceCount)
    (l : list VMProfileTraceCount) :
  index l b = Some c ->
  total (get_sub f <$> <[Z.to_nat b := incr_sub f1 c]> l) =
  total (get_sub f <$> l) - get_sub f c + get_sub f (incr_sub f1 c).
Proof.
  intros Hc%index_lookup. rewrite list_fmap_insert.
  apply total_insert. by rewrite list_lookup_fmap, Hc.
Qed.

Lemma sub_bounds (f : subcounter) (b : Z) (c : VMProfileTraceCount)
    (P : VMProfile) :
  counters_nonneg P -> index (trace P) b = Some c ->
  0 <= get_sub f c <= sub_total f P.
Proof.
  intros [_ Htr] Hc%index_lookup. unfold sub_total.
  apply (total_bounds_element _ (Z.to_nat b)).
  - apply Forall_fmap. eapply Forall_impl; [exact Htr|]. intros c' Hc'. apply Hc'.
  - by rewrite list_lookup_fmap, Hc.
Qed.

Lemma incr_sub_nonneg (f1 : subcounter) (c : VMProfileTraceCount) :
  (forall f, 0 <= get_sub f c) -> forall f, 0 <= get_sub f (incr_sub f1 c).
Proof.
  intros Hc f. rewrite get_incr_sub.
  case_bool_decide; [apply incr64_nonneg|apply Hc].
Qed.

Section Totals.
Context `{Headers}.

(** X6: for each of the fixed pairs (global bucket [i], sub-counter [f]),
    the handler keeps the sum of [f] over the whole trace table at or below
    the global counter [vm[i]], as long as that counter is below [2^64-1]:
    the per-trace counts never exceed the global count they refine.  The
    global counter does not decrease and the counters stay non-negative. *)
Theorem trace_counts_below_global (G : GG_State) (ip : Z) (w w' : Process)
    (P : VMProfile) (i : Z) (f : subcounter) (x : Z) :
  profile w <> 0 -> mem w !! profile w = Some P ->
  counters_nonneg P ->
  (i, f) ∈ matchings ->
  index (vm P) i = Some x -> sub_total f P <= x -> x < 2 ^ 64 - 1 ->
  vmprofile_signal G ip w = Some w' ->
  exists P' x',
    mem w' !! profile w' = Some P' /\ counters_nonneg P' /\
    index (vm P') i = Some x' /\ sub_total f P' <= x' /\ x <= x'.
Proof.
  intros Hp HP Hnn Hin Hx Hle Hmax Hrun.
  destruct (handler_arrays G ip w w' P Hp HP Hrun)
    as (P' & i1 & x1 & Hprof & HP' & _ & _ & _ & Hx1 & Hvm & Htr).
  pose proof Hnn as [Hnv Hnt].
  pose proof (index_Some_range _ _ _ Hx1) as Hi1.
  pose proof (total_bounds_element _ _ _ Hnv (index_lookup _ _ _ Hx)) as Hx0.
  assert (Hx' : exists x', index (vm P') i = Some x' /\ x <= x' /\
                           (i = i1 -> x' = x + 1)).
  { rewrite Hvm, index_insert by lia. case_bool_decide as Hii.
    - subst i1. assert (x1 = x) as -> by congruence.
      rewrite Hx. simpl. exists (incr64 x).
      rewrite incr64_small by lia. split; [done|]. split; lia.
    - exists x. split; [done|]. split; [lia|done]. }
  destruct Hx' as (x' & Hx' & Hxx & Hbump).
  assert (Hnv' : Forall (fun x => 0 <= x) (vm P')).
  { rewrite Hvm. apply Forall_insert; [done|apply incr64_nonneg]. }
  exists P', x'. split; [by rewrite Hprof|].
  destruct Htr as [Htr|(b & f1 & c & Hin1 & Hc & Htr)].
  - split; [split; [done|by rewrite Htr]|]. split; [done|].
    unfold sub_total. rewrite Htr. fold (sub_total f P). split; lia.
  - assert (Hc0 : forall f, 0 <= get_sub f c).
    { intros f0. by destruct (sub_bounds f0 b c P Hnn Hc). }
    split.
    { split; [done|]. rewrite Htr.
      apply Forall_insert; [done|]. by apply incr_sub_nonneg. }
    split; [done|]. split; [|done].
    unfold sub_total. rewrite Htr, sub_total_insert by done.
    fold (sub_total f P). rewrite get_incr_sub.
    case_bool_decide as Hff; [|lia].
    subst f1. pose proof (matchings_functional _ _ _ Hin Hin1) as Hii.
    specialize (Hbump Hii).
    destruct (sub_bounds f b c P Hnn Hc) as [Hlo Hhi].
    rewrite incr64_small by lia. lia.
Qed.

(** X7: a run of [n] samples that all return leaves the active-store
    pointer and the header of the store as they were and adds exactly [n]
    to the sum of the global counters, provided that sum stays below
    [2^64]: every sample is counted once, in one global bucket. *)
Theorem samples_total (ss : list (GG_State * Z)) (w w' : Process)
    (P : VMProfile) :
  profile w <> 0 -> mem w !! profile w = Some P ->
  Forall (fun x => 0 <= x) (vm P) ->
  total (vm P) + Z.of_nat (length ss) < 2 ^ 64 ->
  run_samples ss w = Some w' ->
  exists P',
    profile w' = profile w /\ mem w' !! profile w = Some P' /\
    total (vm P') = total (vm P) + Z.of_nat (length ss) /\
    magic P' = magic P /\ major P' = major P /\ minor P' = minor P.
Proof.
  revert w P. induction ss as [|[G ip] ss IH]; intros w P Hp HP Hnn Hlt Hrun.
  - injection Hrun as <-. exists P. simpl. repeat split; [done|lia].
  - simpl in Hrun.
    destruct (vmprofile_signal G ip w) as [w1|] eqn:H1; [|done].
    destruct (handler_arrays G ip w w1 P Hp HP H1)
      as (P1 & i & x & Hprof & HP1 & Hm & Hj & Hn & Hx & Hvm & _).
    pose proof (total_bounds_element _ _ _ Hnn (index_lookup _ _ _ Hx)) as Hx0.
    rewrite length_cons, Nat2Z.inj_succ in Hlt.
    assert (Htot : total (vm P1) = total (vm P) + 1).
    { rewrite Hvm, (total_insert _ _ x) by by apply index_lookup.
      rewrite incr64_small by lia. lia. }
    destruct (IH w1 P1) as (P' & Hprof' & HP' & Htot' & Hm' & Hj' & Hn').
    + by rewrite Hprof.
    + by rewrite Hprof.
    + rewrite Hvm. apply Forall_insert; [done|apply incr64_nonneg].
    + lia.
    + done.
    + exists P'. rewrite Hprof in Hprof', HP'.
      rewrite length_cons, Nat2Z.inj_succ.
      repeat split; try congruence. lia.
Qed.

End Totals.

(** ** Further properties of the timer management *)

Lemma interval_timeval (interval : Z) :
  0 <= interval ->
  0 <= Z.quot interval 1000 /\
  0 <= Z.rem interval 1000 * 1000 < 1000000 /\
  Z.quot interval 1000 * 1000000 + Z.rem interval 1000 * 1000
  = interval * 1000.
Proof.
  intros Hi.
  pose proof (Z.quot_pos interval 1000 Hi ltac:(lia)).
  pose proof (Z.rem_bound_pos interval 1000 Hi ltac:(lia)).
  pose proof (Z.quot_rem' interval 1000). lia.
Qed.

(** X8: for a non-negative interval in milliseconds [start_timer] arms
    ITIMER_PROF with equal initial expiration and repeat interval, a valid
    [timeval] of exactly [interval * 1000] microseconds; it installs the
    profiler's disposition for SIGPROF (handler [vmprofile_signal], flags
    [SA_SIGINFO | SA_RESTART], empty mask) and saves the previous one in
    [state.oldsa]. *)
Theorem start_timer_period (interval : Z) (w : Process) :
  0 <= interval ->
  it_value (itimer_prof (start_timer interval w))
  = it_interval (itimer_prof (start_timer interval w)) /\
  usec (it_value (itimer_prof (start_timer interval w))) = interval * 1000 /\
  timeval_valid (it_value (itimer_prof (start_timer interval w))) = true /\
  sigprof (start_timer interval w) = profiler_action /\
  oldsa (state (start_timer interval w)) = sigprof w.
Proof.
  intros Hi. destruct (interval_timeval interval Hi) as (Hs & Hu & Hsum).
  assert (Hv : timeval_valid {| tv_sec := Z.quot interval 1000;
                               tv_usec := Z.rem interval 1000 * 1000 |}
               = true).
  { unfold timeval_valid. simpl.
    rewrite !andb_true_iff, !Z.leb_le, Z.ltb_lt. lia. }
  unfold start_timer, setitimer_PROF. simpl. rewrite Hv. simpl.
  repeat split; done.
Qed.

(** X9: for a negative interval the [timeval] computed with C's truncating
    division has a negative field, [setitimer] rejects it, and
    [start_timer] leaves ITIMER_PROF as it was while still installing the
    handler. *)
Theorem start_timer_negative_interval (interval : Z) (w : Process) :
  interval < 0 ->
  timeval_valid {| tv_sec := Z.quot interval 1000;
                   tv_usec := Z.rem interval 1000 * 1000 |} = false /\
  itimer_prof (start_timer interval w) = itimer_prof w /\
  sigprof (start_timer interval w) = profiler_action /\
  oldsa (state (start_timer interval w)) = sigprof w.
Proof.
  intros Hi.
  assert (Hv : timeval_valid {| tv_sec := Z.quot interval 1000;
                               tv_usec := Z.rem interval 1000 * 1000 |}
               = false).
  { unfold timeval_valid. simpl.
    pose proof (Z.quot_le_mono interval 0 1000 ltac:(lia) ltac:(lia)) as Hq.
    change (Z.quot 0 1000) with 0 in Hq.
    pose proof (Z.rem_nonpos interval 1000 ltac:(lia) ltac:(lia)).
    pose proof (Z.quot_rem' interval 1000).
    destruct (Z.leb_spec 0 (Z.quot interval 1000)); [|done].
    destruct (Z.leb_spec 0 (Z.rem interval 1000 * 1000)); [lia|done]. }
  split; [done|].
  unfold start_timer, setitimer_PROF. simpl. rewrite Hv. simpl.
  repeat split; done.
Qed.

(** X10: from any process state, [luaJIT_vmprofile_start] followed by
    [luaJIT_vmprofile_stop] ends with the timer disarmed, the profiler's
    disposition still installed for SIGPROF and also held in
    [state.oldsa], [state.g] set to [G(L)], and the active-store pointer
    and the memory untouched; a further start/stop cycle changes nothing
    more. *)
Theorem start_stop_cycle (L : lua_State) (w : Process) :
  let cycle w := (luaJIT_vmprofile_stop L (luaJIT_vmprofile_start L w).2).2 in
  itimer_prof (cycle w) = disarmed /\
  sigprof (cycle w) = profiler_action /\
  oldsa (state (cycle w)) = profiler_action /\
  state_g (state (cycle w)) = glref L /\
  profile (cycle w) = profile w /\ mem (cycle w) = mem w /\
  stdout (cycle w) = stdout w /\
  cycle (cycle w) = cycle w.
Proof. repeat split; reflexivity. Qed.

(** ** Further properties of the Lua API *)

(** The store after a sample depends on the process only through the
    active-store pointer and the object it points to. *)
Lemma store_after_ext `{Headers} (G : GG_State) (ip : Z) (w1 w2 : Process) :
  profile w1 = profile w2 ->
  mem w1 !! profile w1 = mem w2 !! profile w2 ->
  store_after G ip w1 = store_after G ip w2.
Proof.
  intros Hp Hm. unfold store_after, vmprofile_signal. rewrite <- Hp.
  destruct (profile w1 =? 0); [exact Hm|].
  rewrite <- Hp in Hm. rewrite <- Hm.
  destruct (mem w1 !! profile w1) as [P|]; [|done].
  destruct (0 <? resolve_trace (g G)).
  - destruct (traceref (J G) (resolve_trace (g G))) as [T|]; [|done].
    repeat match goal with
         | |- context [if ?b then _ else _] => destruct b
         end.
    all: destruct (bump _ _ _ P); [|done]; simpl.
    all: by rewrite <- Hp, !lookup_insert_eq.
  - destruct (vm_incr _ P); [|done]. simpl.
    by rewrite <- Hp, !lookup_insert_eq.
Qed.

(** [close(fd)] after [open] gave the fresh descriptor [fd]. *)
Lemma descriptor_closed (fd : Z) (s : gset Z) :
  fd ∉ s -> ({[fd]} ∪ s) ∖ {[fd]} = s.
Proof.
  intros Hfd. apply set_eq. intros x.
  rewrite elem_of_difference, elem_of_union, !elem_of_singleton.
  split; [tauto|]. intros Hx. split; [by right|]. by intros ->.
Qed.

Lemma with_profile_back (p : Z) (w : Process) :
  with_profile (profile w) (with_profile p w) = w.
Proof. by destruct w. Qed.

(** X11: [luaJIT_vmprofile_select] makes [ud] the active store and returns
    the previous pointer as a light userdata (also when it was null),
    without touching memory (the header is not stamped); selecting the
    returned pointer again restores the process exactly and hands [ud]
    back. *)
Theorem select_round_trip (L : lua_State) (ud : Z) (w : Process) :
  let r := luaJIT_vmprofile_select L ud w in
  r.1.1 = 1 /\ base r.1.2 = lightudV (profile w) /\
  profile r.2 = ud /\ mem r.2 = mem w /\
  luaJIT_vmprofile_select r.1.2 (profile w) r.2
  = (1, setlightudV ud L, w).
Proof.
  simpl. do 4 (split; [done|]).
  unfold luaJIT_vmprofile_select. simpl. by rewrite with_profile_back.
Qed.

Section ApiProperties.
Context `{Headers}.

(** X12: after [luaJIT_vmprofile_select] with a null pointer every delivery
    of the signal leaves the process as it is: sampling is switched off
    while the timer keeps running. *)
Theorem select_null_disables_sampling (L : lua_State) (w : Process)
    (ss : list (GG_State * Z)) :
  run_samples ss (luaJIT_vmprofile_select L 0 w).2
  = Some (luaJIT_vmprofile_select L 0 w).2.
Proof. induction ss as [|[G ip] ss IH]; [done|]. simpl. exact IH. Qed.

(** X13: [luaJIT_vmprofile_select] does not check its argument: after
    selecting a non-null address that holds no store, the behaviour of the
    handler is undefined. *)
Theorem select_unmapped_undefined (L : lua_State) (ud : Z) (w : Process)
    (G : GG_State) (ip : Z) :
  ud <> 0 -> mem w !! ud = None ->
  vmprofile_signal G ip (luaJIT_vmprofile_select L ud w).2 = None.
Proof.
  intros Hud Hm. unfold vmprofile_signal. simpl.
  destruct (Z.eqb_spec ud 0); [done|]. by rewrite Hm.
Qed.

Lemma page_round_ge (n : Z) : n <= page_round n.
Proof.
  unfold page_round, PAGE_SIZE.
  pose proof (Z.div_mod (n + 4096 - 1) 4096 ltac:(lia)).
  pose proof (Z.mod_pos_bound (n + 4096 - 1) 4096 ltac:(lia)). lia.
Qed.



(** [munmap] is modelled when no object and no mapping is cut. *)
Lemma munmap_modelled (addr len : Z) (w : Process) :
  addr mod PAGE_SIZE = 0 -> 0 < len ->
  (forall a P, mem w !! a = Some P ->
               cut_range a sizeof_VMProfile addr (page_round len) = false) ->
  (forall a l, mappings w !! a = Some l ->
               cut_range a (page_round l) addr (page_round len) = false) ->
  munmap addr len w =
  Returns
    (with_mappings
       (filter (fun al : Z * Z =>
                  disjoint_range al.1 (page_round al.2) addr (page_round len)
                  = true) (mappings w))
       (with_mem
          (filter (fun aP : Z * VMProfile =>
                     disjoint_range aP.1 sizeof_VMProfile addr
                       (page_round len) = true) (mem w))
          w)).
Proof.
  intros Ha Hl Hmem Hmap. unfold munmap.
  destruct (Z.eqb_spec (addr mod PAGE_SIZE) 0); [|done].
  destruct (Z.leb_spec len 0); [lia|]. simpl.
  rewrite !bool_decide_eq_true_2; done.
Qed.



(** X16: [luaJIT_vmprofile_open] leaks no descriptor: whichever call fails
    or succeeds, the set of open descriptors afterwards is the one before
    (the descriptor it got was not open before). *)
Theorem open_closes_descriptor (L : lua_State) (str : string)
    (os : syscalls) (w : Process) :
  open_ret os ∉ fds w ->
  fds (luaJIT_vmprofile_open L str os w).2 = fds w.
Proof.
  intros Hfd. unfold luaJIT_vmprofile_open.
  destruct (Z.eqb_spec (open_ret os) (-1)); simpl.
  - done.
  - destruct (ftruncate_ret os =? -1); simpl;
      [by apply descriptor_closed|].
    destruct (mmap_ret os) as [[ptr c]|]; simpl; by apply descriptor_closed.
Qed.

Lemma memset_shared_lookup (sh : gset Z) (m : gmap Z VMProfile) (a : Z) :
  memset_shared sh m !! a =
  (fun P => if bool_decide (a ∈ sh) then zero_profile else P) <$> m !! a.
Proof.
  unfold memset_shared. rewrite map_lookup_imap. by destruct (m !! a).
Qed.

Lemma memset_shared_empty (m : gmap Z VMProfile) : memset_shared ∅ m = m.
Proof.
  apply map_eq. intros a. rewrite memset_shared_lookup.
  destruct (m !! a); [|done]. simpl.
  by rewrite bool_decide_eq_false_2 by apply not_elem_of_empty.
Qed.

(** Unmapping the pages of a fresh region removes exactly what was put
    there. *)
Lemma filter_fresh_region {A} (sz : A -> Z) (m : gmap Z A) (p n : Z) (x : A) :
  m !! p = None ->
  disjoint_range p (sz x) p n = false ->
  (forall a y, m !! a = Some y -> disjoint_range a (sz y) p n = true) ->
  filter (fun ay : Z * A => disjoint_range ay.1 (sz ay.2) p n = true)
    (<[p := x]> m) = m.
Proof.
  intros Hp Hx Hm. rewrite map_filter_insert_not'.
  - apply map_filter_id. intros a y Hay. simpl. by apply Hm.
  - simpl. by rewrite Hx.
  - intros y Hy. by rewrite Hp in Hy.
Qed.

(** X17: opening a counter file and closing the handle it returned is a
    round trip on the process state, when the descriptor is fresh, the file
    is mapped nowhere else, and the new mapping is at a fresh page-aligned
    address whose pages hold no other object or mapping: the close returns
    and the process is exactly as before.  A failed open (nil) alone leaves
    the process exactly as before. *)
Theorem open_close_round_trip (L : lua_State) (str : string)
    (os : syscalls) (w : Process) :
  0 < sizeof_VMProfile ->
  open_ret os ∉ fds w ->
  shared_with os = ∅ ->
  (forall p c, mmap_ret os = Some (p, c) ->
     p mod PAGE_SIZE = 0 /\ mem w !! p = None /\ mappings w !! p = None /\
     (forall a P, mem w !! a = Some P ->
        disjoint_range a sizeof_VMProfile p (page_round sizeof_VMProfile)
        = true) /\
     (forall a l, mappings w !! a = Some l ->
        disjoint_range a (page_round l) p (page_round sizeof_VMProfile)
        = true)) ->
  match base (luaJIT_vmprofile_open L str os w).1.2 with
  | lightudV p =>
      luaJIT_vmprofile_close (luaJIT_vmprofile_open L str os w).1.2 p
        (luaJIT_vmprofile_open L str os w).2
      = Returns (0, (luaJIT_vmprofile_open L str os w).1.2, w)
  | nilV => (luaJIT_vmprofile_open L str os w).2 = w
  end.
Proof.
  intros Hs Hfd Hsh Hfresh. unfold luaJIT_vmprofile_open.
  pose proof (descriptor_closed _ _ Hfd) as Hset.
  destruct (Z.eqb_spec (open_ret os) (-1)); simpl.
  - by destruct w.
  - destruct (ftruncate_ret os =? -1); simpl.
    + unfold with_fds. simpl. rewrite Hset. by destruct w.
    + destruct (mmap_ret os) as [[ptr c]|] eqn:Hmm; simpl.
      2:{ unfold with_fds. simpl. rewrite Hset. by destruct w. }
      destruct (Hfresh ptr c eq_refl) as (Ha & Hm & Hmap & Hdm & Hdmap).
      pose proof (page_round_ge sizeof_VMProfile) as Hge.
      assert (Hself : forall l, 0 < l -> l <= page_round sizeof_VMProfile ->
                disjoint_range ptr l ptr (page_round sizeof_VMProfile) = false
                /\ cut_range ptr l ptr (page_round sizeof_VMProfile) = false).
      { intros l Hl Hle. unfold cut_range, disjoint_range, inside_range.
        destruct (Z.leb_spec (ptr + l) ptr); [lia|].
        destruct (Z.leb_spec (ptr + page_round sizeof_VMProfile) ptr); [lia|].
        destruct (Z.leb_spec ptr ptr); [|lia].
        destruct (Z.leb_spec (ptr + l) (ptr + page_round sizeof_VMProfile));
          [done|lia]. }
      unfold luaJIT_vmprofile_close. rewrite Hsh, memset_shared_empty.
      rewrite munmap_modelled; simpl; try done.
      * rewrite insert_insert_eq.
        rewrite (filter_fresh_region (fun _ => sizeof_VMProfile)); try done;
          [|by apply Hself].
        rewrite (filter_fresh_region page_round); try done.
        -- unfold with_mappings, with_mem, with_fds. simpl. rewrite Hset.
           by destruct w.
        -- apply Hself; [|done]. lia.
      * rewrite insert_insert_eq. intros a P.
        rewrite lookup_insert_Some. intros [[<- _]|[_ HaP]].
        -- by apply Hself.
        -- unfold cut_range. by rewrite (Hdm a P HaP).
      * intros a l. rewrite lookup_insert_Some. intros [[<- <-]|[_ Hal]].
        -- apply Hself; [lia|done].
        -- unfold cut_range. by rewrite (Hdmap a l Hal).
Qed.

(** X18: [luaJIT_vmprofile_open] does not select the store it creates: the
    active-store pointer is unchanged, and when the file opened is not the
    one the active store is a shared mapping of (and the new mapping is at
    another address), the next sample is counted in the active store
    exactly as without the call. *)
Theorem open_does_not_redirect_samples (L : lua_State) (str : string)
    (os : syscalls) (w : Process) (G : GG_State) (ip : Z) :
  profile w ∉ shared_with os ->
  (forall p c, mmap_ret os = Some (p, c) -> p <> profile w) ->
  profile (luaJIT_vmprofile_open L str os w).2 = profile w /\
  store_after G ip (luaJIT_vmprofile_open L str os w).2
  = store_after G ip w.
Proof.
  intros Hsh Hne.
  assert (Hp : profile (luaJIT_vmprofile_open L str os w).2 = profile w).
  { unfold luaJIT_vmprofile_open.
    destruct (open_ret os =? -1); simpl; [done|].
    destruct (ftruncate_ret os =? -1); simpl; [done|].
    by destruct (mmap_ret os) as [[ptr c]|]. }
  split; [done|]. apply store_after_ext; [done|]. rewrite Hp.
  unfold luaJIT_vmprofile_open.
  destruct (open_ret os =? -1); simpl; [done|].
  destruct (ftruncate_ret os =? -1); simpl; [done|].
  destruct (mmap_ret os) as [[ptr c]|] eqn:Hmm; simpl; [|done].
  specialize (Hne ptr c eq_refl).
  rewrite lookup_insert_ne, memset_shared_lookup, lookup_insert_ne by done.
  destruct (mem w !! profile w); [|done]. simpl.
  by rewrite bool_decide_eq_false_2.
Qed.

(** X21: opening the file that the active store is a shared mapping of
    zeroes the active store: after a successful
    [luaJIT_vmprofile_open] its header and all its counters read zero,
    although the active-store pointer still refers to it. *)
Theorem open_active_file_zeroes_store (L : lua_State) (str : string)
    (os : syscalls) (w : Process) (P : VMProfile) (p : Z)
    (contents : VMProfile) :
  mem w !! profile w = Some P ->
  profile w ∈ shared_with os ->
  open_ret os <> -1 -> ftruncate_ret os <> -1 ->
  mmap_ret os = Some (p, contents) -> p <> profile w ->
  profile (luaJIT_vmprofile_open L str os w).2 = profile w /\
  mem (luaJIT_vmprofile_open L str os w).2 !! profile w = Some zero_profile /\
  (forall c x, read zero_profile c = Some x -> x = 0) /\
  magic zero_profile = 0.
Proof.
  intros HP Hsh Hfd Hft Hmm Hne. unfold luaJIT_vmprofile_open.
  destruct (Z.eqb_spec (open_ret os) (-1)); [done|].
  destruct (Z.eqb_spec (ftruncate_ret os) (-1)); [done|].
  rewrite Hmm. simpl. split; [done|]. split.
  - rewrite lookup_insert_ne, memset_shared_lookup, lookup_insert_ne by done.
    rewrite HP. simpl. by rewrite bool_decide_eq_true_2.
  - split; [apply zero_profile_read|done].
Qed.

(** X19: a store obtained from a successful [luaJIT_vmprofile_open] and
    then installed with [vmprofile_set_profile] is the active store, is
    well-formed, carries magic [0x1d50f007] and version 3.0, and has every
    counter at zero. *)
Theorem open_then_set_profile (L : lua_State) (str : string)
    (os : syscalls) (w : Process) (p : Z) (contents : VMProfile) :
  enum_ok = true ->
  open_ret os <> -1 -> ftruncate_ret os <> -1 ->
  mmap_ret os = Some (p, contents) ->
  base (luaJIT_vmprofile_open L str os w).1.2 = lightudV p /\
  exists w2 P,
    vmprofile_set_profile p (luaJIT_vmprofile_open L str os w).2 = Some w2 /\
    profile w2 = p /\ mem w2 !! p = Some P /\
    magic P = 0x1d50f007 /\ major P = 3 /\ minor P = 0 /\
    wf_profile P /\
    (forall c x, read P c = Some x -> x = 0).
Proof.
  intros Hok Hfd Hft Hmm.
  pose proof (enum_ok_bounds Hok) as (Hi & _).
  destruct (enum_ok_range Hok) as [_ Hmax].
  unfold luaJIT_vmprofile_open, vmprofile_set_profile.
  destruct (Z.eqb_spec (open_ret os) (-1)); [done|].
  destruct (Z.eqb_spec (ftruncate_ret os) (-1)); [done|].
  rewrite Hmm. simpl. split; [done|]. rewrite lookup_insert_eq.
  eexists _, _. split; [done|]. simpl. split; [done|].
  split; [apply lookup_insert_eq|]. do 3 (split; [done|]). split.
  - split; simpl; rewrite length_replicate; lia.
  - intros c x Hr. by apply (zero_profile_read c x).
Qed.

End ApiProperties.

(** X20: [vmprofile_set_profile] is idempotent: installing the same region
    a second time changes nothing. *)
Theorem set_profile_idempotent (counters : Z) (w w1 : Process) :
  vmprofile_set_profile counters w = Some w1 ->
  vmprofile_set_profile counters w1 = Some w1.
Proof.
  unfold vmprofile_set_profile. simpl.
  destruct (mem w !! counters) as [P|]; [|done].
  intros [= <-]. simpl. rewrite lookup_insert_eq. simpl.
  unfold with_mem, with_profile. simpl. by rewrite insert_insert_eq.
Qed.

(** ** Instances of the further properties on the example data *)

Lemma example_store_nonneg : counters_nonneg example_store.
Proof.
  split.
  - apply Forall_forall. intros x [-> _]%elem_of_replicate. done.
  - apply Forall_forall. intros c [-> _]%elem_of_replicate. by intros [].
Qed.


(** X2, witness. *)
Lemma vmprofile_signal_keeps_header_witness :
  exists P',
    mem example_after !! profile example_after = Some P' /\
    magic P' = magic example_store /\ major P' = major example_store /\
    minor P' = minor example_store /\
    length (vm P') = length (vm example_store) /\
    length (trace P') = length (trace example_store) /\
    (@wf_profile test_headers example_store -> @wf_profile test_headers P').
Proof.
  apply (@vmprofile_signal_keeps_header test_headers (example_host 16)
           (0x10000 + 20) example_process example_after example_store).
  - discriminate.
  - reflexivity.
  - reflexivity.
Defined.

(** X3, witness. *)
Lemma vmprofile_signal_defined_iff_witness :
  is_Some (@vmprofile_signal test_headers (example_host 16) (0x10000 + 20)
             example_process)
  <-> @valid_sample test_headers (example_host 16).
Proof.
  apply (@vmprofile_signal_defined_iff test_headers (example_host 16)
           (0x10000 + 20) example_process example_store).
  - reflexivity.
  - discriminate.
  - reflexivity.
  - split; reflexivity.
Defined.

(** X4, witness: the interpreter, at two instruction pointers. *)
Lemma ip_irrelevant_outside_mcode_witness :
  @vmprofile_signal test_headers example_interp 0 example_process
  = @vmprofile_signal test_headers example_interp 0x10000 example_process.
Proof.
  apply (@ip_irrelevant_outside_mcode test_headers example_interp 0 0x10000
           example_process).
  vm_compute. discriminate.
Defined.

(** X5, witness: trace 1 with its loop at offset 16, sampled at offset
    20. *)
Lemma classification_by_region_witness :
  (0x10000 + 20 < mcode (example_trace 16) \/
   mcode (example_trace 16) + szmcode (example_trace 16) <= 0x10000 + 20 ->
   @classified test_headers (@LJ_VMST_FFI test_headers) sub_ffi
     (vmstate (g (example_host 16))) (example_host 16) (0x10000 + 20)
     example_process) /\
  (mcode (example_trace 16) <= 0x10000 + 20
   < mcode (example_trace 16) + szmcode (example_trace 16) ->
   mcloop (example_trace 16) <> 0 ->
   mcode (example_trace 16) + mcloop (example_trace 16) <= 0x10000 + 20 ->
   @classified test_headers (@LJ_VMST_LOOP test_headers) sub_loop
     (vmstate (g (example_host 16))) (example_host 16) (0x10000 + 20)
     example_process) /\
  (mcode (example_trace 16) <= 0x10000 + 20
   < mcode (example_trace 16) + szmcode (example_trace 16) ->
   mcloop (example_trace 16) = 0 \/
   0x10000 + 20 < mcode (example_trace 16) + mcloop (example_trace 16) ->
   @classified test_headers (@LJ_VMST_HEAD test_headers) sub_head
     (vmstate (g (example_host 16))) (example_host 16) (0x10000 + 20)
     example_process).
Proof.
  apply (@classification_by_region test_headers (example_host 16)
           (0x10000 + 20) example_process example_store (example_trace 16)).
  - reflexivity.
  - discriminate.
  - reflexivity.
  - split; reflexivity.
  - reflexivity.
  - reflexivity.
  - simpl. lia.
Defined.

(** X6, witness: the pair (LOOP, loop) across one loop sample. *)
Lemma trace_counts_below_global_witness :
  exists P' x',
    mem example_after !! profile example_after = Some P' /\
    counters_nonneg P' /\
    index (vm P') (@LJ_VMST_LOOP test_headers) = Some x' /\
    sub_total sub_loop P' <= x' /\ 0 <= x'.
Proof.
  apply (@trace_counts_below_global test_headers (example_host 16)
           (0x10000 + 20) example_process example_after example_store
           (@LJ_VMST_LOOP test_headers) sub_loop 0).
  - discriminate.
  - reflexivity.
  - exact example_store_nonneg.
  - unfold matchings. rewrite !elem_of_cons. tauto.
  - reflexivity.
  - vm_compute. discriminate.
  - reflexivity.
  - reflexivity.
Defined.

(** X7, witness: the three example samples on the zeroed store. *)
Lemma samples_total_witness :
  exists P',
    profile example_session_end = profile example_process /\
    mem example_session_end !! profile example_process = Some P' /\
    total (vm P') =
      total (vm example_store) + Z.of_nat (length example_samples) /\
    magic P' = magic example_store /\ major P' = major example_store /\
    minor P' = minor example_store.
Proof.
  apply (@samples_total test_headers example_samples example_process
           example_session_end example_store).
  - discriminate.
  - reflexivity.
  - exact (proj1 example_store_nonneg).
  - reflexivity.
  - reflexivity.
Defined.

(** X8, witness: the interval of one millisecond used by
    [luaJIT_vmprofile_start]. *)
Lemma start_timer_period_witness :
  it_value (itimer_prof (start_timer 1 hooked_process))
  = it_interval (itimer_prof (start_timer 1 hooked_process)) /\
  usec (it_value (itimer_prof (start_timer 1 hooked_process))) = 1 * 1000 /\
  timeval_valid (it_value (itimer_prof (start_timer 1 hooked_process)))
  = true /\
  sigprof (start_timer 1 hooked_process) = profiler_action /\
  oldsa (state (start_timer 1 hooked_process)) = sigprof hooked_process.
Proof. apply (start_timer_period 1 hooked_process). lia. Defined.

(** X9, witness: an interval of minus one millisecond. *)
Lemma start_timer_negative_interval_witness :
  timeval_valid {| tv_sec := Z.quot (-1) 1000;
                   tv_usec := Z.rem (-1) 1000 * 1000 |} = false /\
  itimer_prof (start_timer (-1) hooked_process) = itimer_prof hooked_process /\
  sigprof (start_timer (-1) hooked_process) = profiler_action /\
  oldsa (state (start_timer (-1) hooked_process)) = sigprof hooked_process.
Proof. apply (start_timer_negative_interval (-1) hooked_process). lia. Defined.

(** X13, witness: address 8192 holds no store. *)
Lemma select_unmapped_undefined_witness :
  @vmprofile_signal test_headers (example_host 16) (0x10000 + 20)
    (luaJIT_vmprofile_select example_L 8192 example_process).2 = None.
Proof.
  apply (@select_unmapped_undefined test_headers example_L 8192
           example_process (example_host 16) (0x10000 + 20)).
  - discriminate.
  - reflexivity.
Defined.



(** X16, witness: the example process has no descriptor open. *)
Lemma open_closes_descriptor_witness :
  fds (@luaJIT_vmprofile_open test_headers example_L "vmprofile" syscalls_ok
         example_process).2
  = fds example_process.
Proof.
  apply (@open_closes_descriptor test_headers example_L "vmprofile"
           syscalls_ok example_process).
  apply not_elem_of_empty.
Defined.

(** X17, witness: a successful open, then close. *)
Lemma open_close_round_trip_witness :
  match base (@luaJIT_vmprofile_open test_headers example_L "vmprofile"
                syscalls_ok example_process).1.2 with
  | lightudV p =>
      @luaJIT_vmprofile_close test_headers
        (@luaJIT_vmprofile_open test_headers example_L "vmprofile"
           syscalls_ok example_process).1.2 p
        (@luaJIT_vmprofile_open test_headers example_L "vmprofile"
           syscalls_ok example_process).2
      = Returns (0,
                 (@luaJIT_vmprofile_open test_headers example_L "vmprofile"
                    syscalls_ok example_process).1.2,
                 example_process)
  | nilV =>
      (@luaJIT_vmprofile_open test_headers example_L "vmprofile"
         syscalls_ok example_process).2 = example_process
  end.
Proof.
  apply (@open_close_round_trip test_headers example_L "vmprofile"
           syscalls_ok example_process).
  - reflexivity.
  - apply not_elem_of_empty.
  - reflexivity.
  - intros p c [= <- <-]. split; [reflexivity|].
    split; [reflexivity|]. split; [reflexivity|]. split.
    + intros a P Hm. unfold example_process in Hm. cbn [mem] in Hm.
      apply lookup_singleton_Some in Hm as [<- _]. reflexivity.
    + intros a l Hm. unfold example_process in Hm. cbn [mappings] in Hm.
      apply lookup_singleton_Some in Hm as [<- <-]. reflexivity.
Defined.

(** X18, witness. *)
Lemma open_does_not_redirect_samples_witness :
  profile (@luaJIT_vmprofile_open test_headers example_L "vmprofile"
             syscalls_ok example_process).2 = profile example_process /\
  @store_after test_headers (example_host 16) (0x10000 + 20)
    (@luaJIT_vmprofile_open test_headers example_L "vmprofile" syscalls_ok
       example_process).2
  = @store_after test_headers (example_host 16) (0x10000 + 20)
      example_process.
Proof.
  apply (@open_does_not_redirect_samples test_headers example_L "vmprofile"
           syscalls_ok example_process (example_host 16) (0x10000 + 20)).
  - apply not_elem_of_empty.
  - intros p c [= <- <-]. discriminate.
Defined.

(** X21, witness: the active store at 4096, with a counter at its
    maximum, is a shared mapping of the file being opened. *)
Lemma open_active_file_zeroes_store_witness :
  profile (@luaJIT_vmprofile_open test_headers example_L "vmprofile"
             syscalls_same_file saturated_process).2
  = profile saturated_process /\
  mem (@luaJIT_vmprofile_open test_headers example_L "vmprofile"
         syscalls_same_file saturated_process).2 !! profile saturated_process
  = Some (@zero_profile test_headers) /\
  (forall c x, read (@zero_profile test_headers) c = Some x -> x = 0) /\
  magic (@zero_profile test_headers) = 0.
Proof.
  apply (@open_active_file_zeroes_store test_headers example_L "vmprofile"
           syscalls_same_file saturated_process saturated_store
           0x7f0000000000 saturated_store).
  - reflexivity.
  - unfold syscalls_same_file, saturated_process.
    cbn [shared_with profile with_mem example_process].
    by apply elem_of_singleton_2.
  - discriminate.
  - discriminate.
  - reflexivity.
  - discriminate.
Defined.

(** X19, witness. *)
Lemma open_then_set_profile_witness :
  base (@luaJIT_vmprofile_open test_headers example_L "vmprofile"
          syscalls_ok example_process).1.2 = lightudV 0x7f0000000000 /\
  exists w2 P,
    vmprofile_set_profile 0x7f0000000000
      (@luaJIT_vmprofile_open test_headers example_L "vmprofile"
         syscalls_ok example_process).2 = Some w2 /\
    profile w2 = 0x7f0000000000 /\ mem w2 !! 0x7f0000000000 = Some P /\
    magic P = 0x1d50f007 /\ major P = 3 /\ minor P = 0 /\
    @wf_profile test_headers P /\
    (forall c x, read P c = Some x -> x = 0).
Proof.
  apply (@open_then_set_profile test_headers example_L "vmprofile"
           syscalls_ok example_process 0x7f0000000000
           {| magic := 0x1d50f007; major := 3; minor := 0;
              vm := vm saturated_store; trace := trace saturated_store |}).
  - reflexivity.
  - discriminate.
  - discriminate.
  - reflexivity.
Defined.

(** X20, witness: installing the example store twice. *)
Lemma set_profile_idempotent_witness :
  vmprofile_set_profile 4096 example_installed = Some example_installed.
Proof.
  apply (set_profile_idempotent 4096 example_process example_installed).
  reflexivity.
Defined.
